(** * Civic-Issues employee client: session and request lifecycle

    A shallow embedding of the stateful logic of the Expo / React Native
    client: the [AuthProvider] (restore, login, logout), the login form,
    and the data fetches and writes of the complaint list, complaint detail
    and profile screens.

    React state cells ([useState]) are fields of explicit state records, one
    record per component.  An [async] function is a program in a state monad
    with exceptions: a rejected promise or a thrown error is [Throw], and the
    state written before the throw is kept, as it is in JavaScript.  What a
    function does to the outside (alert dialogs, navigation, network
    requests, console output) is appended to an event log.  What the outside
    answers (the response to a [fetch], whether an [AsyncStorage] call
    rejects) is an argument of the function that asks. *)

From Stdlib Require Import String Ascii List ZArith Bool Lia Floats.
Import ListNotations.
Open Scope string_scope.

Set Implicit Arguments.

(** ** JavaScript values the code tests *)

Module Js.

(** Truthiness of a [string | null | undefined] value: [!v] is true for
    [null], [undefined] and the empty string. *)
Definition truthy (v : option string) : bool :=
  match v with
  | Some s => negb (s =? "")
  | None => false
  end.

(** Truthiness of an object-or-null value. *)
Definition present {A : Type} (v : option A) : bool :=
  match v with
  | Some _ => true
  | None => false
  end.

(** [a || b] on strings: [a] when it is truthy, otherwise [b]. *)
Definition or_else (a : option string) (b : string) : string :=
  match a with
  | Some s => if s =? "" then b else s
  | None => b
  end.

(** A template literal's rendering of a possibly undefined string. *)
Definition render (v : option string) : string :=
  match v with
  | Some s => s
  | None => "undefined"
  end.

(** Strings hold their text in UTF-8, as string literals do: a code point
    up to U+007F is one byte, one up to U+07FF two, one up to U+FFFF three.

    The white space [String.prototype.trim] strips is the code points of
    WhiteSpace and LineTerminator.  In one byte: TAB, LF, VT, FF, CR and
    SPACE. *)
Definition is_space1 (c : ascii) : bool :=
  let n := nat_of_ascii c in
  ((9 <=? n) && (n <=? 13))%nat || (n =? 32)%nat.

(** In two bytes: U+00A0 NO-BREAK SPACE, [C2 A0]. *)
Definition is_space2 (c1 c2 : ascii) : bool :=
  ((nat_of_ascii c1 =? 194) && (nat_of_ascii c2 =? 160))%nat.

(** In three bytes: U+1680 [E1 9A 80]; U+2000 to U+200A, U+2028, U+2029
    and U+202F [E2 80 80..8A, A8, A9, AF]; U+205F [E2 81 9F]; U+3000
    [E3 80 80]; U+FEFF [EF BB BF]. *)
Definition is_space3 (c1 c2 c3 : ascii) : bool :=
  let n1 := nat_of_ascii c1 in
  let n2 := nat_of_ascii c2 in
  let n3 := nat_of_ascii c3 in
  ((n1 =? 225) && (n2 =? 154) && (n3 =? 128)
   || (n1 =? 226) && (n2 =? 128)
      && ((128 <=? n3) && (n3 <=? 138) || (n3 =? 168) || (n3 =? 169) || (n3 =? 175))
   || (n1 =? 226) && (n2 =? 129) && (n3 =? 159)
   || (n1 =? 227) && (n2 =? 128) && (n3 =? 128)
   || (n1 =? 239) && (n2 =? 187) && (n3 =? 191))%nat.

(** The string without the white-space code point it starts with; [None]
    when it starts with none. *)
Definition strip_space (s : string) : option string :=
  match s with
  | String c1 s1 =>
      if is_space1 c1 then Some s1
      else match s1 with
           | String c2 s2 =>
               if is_space2 c1 c2 then Some s2
               else match s2 with
                    | String c3 s3 => if is_space3 c1 c2 c3 then Some s3 else None
                    | EmptyString => None
                    end
           | EmptyString => None
           end
  | EmptyString => None
  end.

Fixpoint trimStart (s : string) : string :=
  match s with
  | String c1 s1 =>
      if is_space1 c1 then trimStart s1
      else match s1 with
           | String c2 s2 =>
               if is_space2 c1 c2 then trimStart s2
               else match s2 with
                    | String c3 s3 => if is_space3 c1 c2 c3 then trimStart s3 else s
                    | EmptyString => s
                    end
           | EmptyString => s
           end
  | EmptyString => s
  end.

(** [trimEnd] cuts the string where only white space follows: [trimStart]
    leaves nothing of a string exactly when it is white space throughout. *)
Fixpoint trimEnd (s : string) : string :=
  match s with
  | String c s' => if trimStart s =? "" then EmptyString else String c (trimEnd s')
  | EmptyString => EmptyString
  end.

Definition trim (s : string) : string := trimEnd (trimStart s).

(** [String.prototype.toLowerCase] and [toUpperCase], over the ASCII
    range: only the 26 letters change. *)
Definition lower_char (c : ascii) : ascii :=
  let n := nat_of_ascii c in
  if ((65 <=? n) && (n <=? 90))%nat then ascii_of_nat (n + 32) else c.

Definition upper_char (c : ascii) : ascii :=
  let n := nat_of_ascii c in
  if ((97 <=? n) && (n <=? 122))%nat then ascii_of_nat (n - 32) else c.

Fixpoint toLowerCase (s : string) : string :=
  match s with
  | String c s' => String (lower_char c) (toLowerCase s')
  | EmptyString => EmptyString
  end.

Fixpoint toUpperCase (s : string) : string :=
  match s with
  | String c s' => String (upper_char c) (toUpperCase s')
  | EmptyString => EmptyString
  end.

End Js.

(** ** Records of the backend's JSON *)

(** A JavaScript number: an IEEE 754 double. *)
Definition number := float.

(** [interface Employee] of the auth context; [ProfileData] of the profile
    screen has the same fields. *)
Module Employee.
Record PerformanceStats := {
  total_complaints_resolved : number;
  total_complaints_assigned : number;
  resolution_rate : number;
  last_activity : string
}.

Record t := {
  id : string;
  employee_id : string;
  name : string;
  email : string;
  department : string;
  contact_phone : string;
  is_active : bool;
  created_at : string;
  performance_stats : PerformanceStats
}.
End Employee.

Definition ProfileData := Employee.t.

(** [interface Complaint] of the list screen. *)
Module Complaint.
Record t := {
  id : string;
  title : string;
  description : string;
  citizen_name : string;
  citizen_phone : string;
  category : string;
  priority : string;
  status : string;
  color_code : string;
  location_address : string;
  citizen_image : option string;
  assigned_employee_name : option string;
  created_at : string;
  updated_at : string
}.
End Complaint.

(** [interface ComplaintDetail] of the detail screen. *)
Module ComplaintDetail.
Record ProgressPhoto := {
  image : string;
  note : option string;
  timestamp : string;
  added_by : string;
  employee_id : string
}.

Record t := {
  id : string;
  title : string;
  description : string;
  citizen_name : string;
  citizen_phone : string;
  citizen_email : option string;
  category : string;
  priority : string;
  status : string;
  color_code : string;
  location_address : string;
  location_coordinates : option (number * number);
  citizen_image : option string;
  assigned_employee_id : option string;
  assigned_employee_name : option string;
  progress_photos : list ProgressPhoto;
  created_at : string;
  updated_at : string
}.
End ComplaintDetail.

(** Body of a 2xx answer to [POST /api/auth/login], read at the types
    [setToken] and [setEmployee] take: [data] is untyped in the source, and
    this record is the body that has both fields, [access_token] a string
    and [employee] an employee record.  A 2xx body that lacks one of them
    is outside the model. *)
Module LoginData.
Record t := {
  access_token : string;
  employee : Employee.t
}.
End LoginData.

(** Body of an error answer: [errorData.detail] may be missing. *)
Module ErrorData.
Record t := {
  detail : option string
}.
End ErrorData.

(** ** Network *)

(** The object [JSON.stringify] is applied to, per request. *)
Inductive Body :=
| no_body
| login_body (employee_id password : string)
| status_body (status : string)
              (assigned_employee_id assigned_employee_name : option string)
| photo_body (complaint_id image note : string).

Record Request := {
  url : string;
  method : string;
  headers : list (string * string);
  body : Body
}.

(** A response that arrived.  [response.ok] is the constructor: [Ok2xx]
    carries a status in 200..299 and [NotOk] one outside it.  [json] is what
    [response.json()] resolves to, read at the type the branch uses; [None]
    when it rejects. *)
Inductive Response (A E : Type) :=
| Ok2xx (status : Z) (json : option A)
| NotOk (status : Z) (json : option E).

Arguments Ok2xx {A E} status json.
Arguments NotOk {A E} status json.

(** What [await fetch(...)] gives: the promise rejects (no response was
    received) or resolves with a response. *)
Inductive FetchResult (A E : Type) :=
| fetch_rejects
| fetch_resolves (response : Response A E).

Arguments fetch_rejects {A E}.
Arguments fetch_resolves {A E} response.

(** ** The persisted store *)

(** The text kept under ['employee_data'], by what [JSON.parse] makes of
    it: the text [JSON.stringify] gives for an employee record, the text
    [null], or text that [JSON.parse] rejects ([not_JSON ""] is the empty
    text). *)
Inductive JsonText :=
| JSON_employee (e : Employee.t)
| JSON_null
| not_JSON (s : string).

Definition JSON_stringify (e : Employee.t) : JsonText := JSON_employee e.

(** [None]: [JSON.parse] throws.  [Some None]: it returns [null]. *)
Definition JSON_parse (t : JsonText) : option (option Employee.t) :=
  match t with
  | JSON_employee e => Some (Some e)
  | JSON_null => Some None
  | not_JSON _ => None
  end.

(** Truthiness of a stored text: every text but the empty one. *)
Definition text_truthy (v : option JsonText) : bool :=
  match v with
  | Some (not_JSON s) => negb (s =? "")
  | Some _ => true
  | None => false
  end.

(** [AsyncStorage], at the two keys the client uses. *)
Record AsyncStorage := {
  auth_token : option string;
  employee_data : option JsonText
}.

Definition with_auth_token (v : option string) (st : AsyncStorage) : AsyncStorage :=
  {| auth_token := v; employee_data := employee_data st |}.

Definition with_employee_data (v : option JsonText) (st : AsyncStorage) : AsyncStorage :=
  {| auth_token := auth_token st; employee_data := v |}.

(** Which [AsyncStorage] calls reject, by the key they are made with. *)
Record Faults := {
  getItem_rejects : string -> bool;
  setItem_rejects : string -> bool;
  removeItem_rejects : string -> bool
}.

Definition no_faults : Faults :=
  {| getItem_rejects := fun _ => false;
     setItem_rejects := fun _ => false;
     removeItem_rejects := fun _ => false |}.

(** ** Events and the provider's state *)

Inductive Event :=
| Alert_alert (title message : string)
| fetch_call (req : Request)
| router_replace (href : string)
| router_back
| console_log (msg : string)
| console_warn (msg : string)
| console_error (msg : string).

(** The [AuthProvider]'s three state cells, the persisted store, and the
    log of events so far (oldest first). *)
Record World := {
  storage : AsyncStorage;
  employee : option Employee.t;
  token : option string;
  isLoading : bool;
  events : list Event
}.

(** ** Programs *)

Inductive Error := NetworkError | JsonError | StorageError.

Inductive Outcome (A : Type) :=
| Val (a : A)
| Throw (err : Error).

Arguments Val {A} a.
Arguments Throw {A} err.

Definition Prog (S A : Type) : Type := S -> Outcome A * S.

Definition ret {S A : Type} (a : A) : Prog S A := fun s => (Val a, s).

Definition bind {S A B : Type} (m : Prog S A) (k : A -> Prog S B) : Prog S B :=
  fun s =>
    match m s with
    | (Val a, s') => k a s'
    | (Throw e, s') => (Throw e, s')
    end.

Definition throw {S A : Type} (e : Error) : Prog S A := fun s => (Throw e, s).

Declare Scope prog_scope.
Delimit Scope prog_scope with prog.
Notation "x <- m ;; k" := (bind m (fun x => k))
  (at level 61, m at next level, right associativity) : prog_scope.
Notation "m ;; k" := (bind m (fun _ => k))
  (at level 61, right associativity) : prog_scope.
Open Scope prog_scope.

(** [try { body } catch (error) { handler }] *)
Definition try_catch {S A : Type} (body : Prog S A) (handler : Error -> Prog S A)
  : Prog S A :=
  fun s =>
    match body s with
    | (Val a, s') => (Val a, s')
    | (Throw e, s') => handler e s'
    end.

(** [try { body } finally { fin }]: [fin] runs on both exits, and the
    body's outcome stands unless [fin] throws. *)
Definition try_finally {S A : Type} (body : Prog S A) (fin : Prog S unit)
  : Prog S A :=
  fun s =>
    match body s with
    | (o, s') =>
        match fin s' with
        | (Val _, s'') => (o, s'')
        | (Throw e, s'') => (Throw e, s'')
        end
    end.

(** A call of an [async] function that is not awaited: its effects
    happen, its result and a rejection are dropped.  The callee's steps
    after its first [await] run once the caller has finished; the callers
    below only touch their own loading flags after such a call, and the
    callees never touch those, so running the callee to its end at the point
    of the call gives the same state and the same event order. *)
Definition unawaited {S A : Type} (m : Prog S A) : Prog S unit :=
  fun s => (Val tt, snd (m s)).

Definition modify {S : Type} (f : S -> S) : Prog S unit :=
  fun s => (Val tt, f s).

Definition get {S : Type} : Prog S S := fun s => (Val s, s).

(** A provider program run from a screen, whose state is the world and
    the screen's own cells. *)
Definition lift {L A : Type} (m : Prog World A) : Prog (World * L) A :=
  fun s =>
    match m (fst s) with
    | (o, w') => (o, (w', snd s))
    end.

Definition local {L : Type} (f : L -> L) : Prog (World * L) unit :=
  fun s => (Val tt, (fst s, f (snd s))).

Definition exec {S A : Type} (m : Prog S A) (s : S) : S := snd (m s).
Definition result {S A : Type} (m : Prog S A) (s : S) : Outcome A := fst (m s).

(** *** World primitives *)

Definition emit (e : Event) : Prog World unit :=
  modify (fun w =>
    {| storage := storage w; employee := employee w; token := token w;
       isLoading := isLoading w; events := events w ++ [e] |}).

Definition setToken (v : option string) : Prog World unit :=
  modify (fun w =>
    {| storage := storage w; employee := employee w; token := v;
       isLoading := isLoading w; events := events w |}).

Definition setEmployee (v : option Employee.t) : Prog World unit :=
  modify (fun w =>
    {| storage := storage w; employee := v; token := token w;
       isLoading := isLoading w; events := events w |}).

Definition setIsLoading (v : bool) : Prog World unit :=
  modify (fun w =>
    {| storage := storage w; employee := employee w; token := token w;
       isLoading := v; events := events w |}).

Definition setStorage (f : AsyncStorage -> AsyncStorage) : Prog World unit :=
  modify (fun w =>
    {| storage := f (storage w); employee := employee w; token := token w;
       isLoading := isLoading w; events := events w |}).

(** [await AsyncStorage.getItem(key)] *)
Definition getItem {A : Type} (F : Faults) (key : string)
    (field : AsyncStorage -> option A) : Prog World (option A) :=
  if getItem_rejects F key then throw StorageError
  else (w <- get ;; ret (field (storage w))).

(** [await AsyncStorage.setItem(key, value)] *)
Definition setItem (F : Faults) (key : string)
    (write : AsyncStorage -> AsyncStorage) : Prog World unit :=
  if setItem_rejects F key then throw StorageError else setStorage write.

(** [await AsyncStorage.removeItem(key)] *)
Definition removeItem (F : Faults) (key : string)
    (erase : AsyncStorage -> AsyncStorage) : Prog World unit :=
  if removeItem_rejects F key then throw StorageError else setStorage erase.

(** [await fetch(url, init)]: the request goes out, then the promise
    settles as the network decides. *)
Definition fetch {A E : Type} (req : Request) (answer : FetchResult A E)
  : Prog World (Response A E) :=
  emit (fetch_call req) ;;
  match answer with
  | fetch_rejects => throw NetworkError
  | fetch_resolves response => ret response
  end.

(** [await response.json()] *)
Definition json_of {S A : Type} (json : option A) : Prog S A :=
  match json with
  | Some a => ret a
  | None => throw JsonError
  end.

Definition bearer_headers (token : option string) : list (string * string) :=
  [("Authorization", "Bearer " ++ Js.render token);
   ("Content-Type", "application/json")].

(** ** The auth context *)

(** [interface AuthContextType]: the value the provider hands to the
    screens, a snapshot of its cells with its two operations. *)
Module AuthContextType.
Record t := {
  employee : option Employee.t;
  token : option string;
  login : string -> string -> Prog World bool;
  logout : Prog World unit;
  isLoading : bool
}.
End AuthContextType.

(** ** AuthProvider *)

Module AuthProvider.
Section WithBackend.

(** [process.env.EXPO_PUBLIC_BACKEND_URL] *)
Variable BACKEND_URL : option string.

(** [checkAuthStatus], run once when the provider mounts. *)
Definition checkAuthStatus (F : Faults) : Prog World unit :=
  try_finally
    (try_catch
       (storedToken <- getItem F "auth_token" auth_token ;;
        storedEmployee <- getItem F "employee_data" employee_data ;;
        if Js.truthy storedToken && text_truthy storedEmployee then
          setToken storedToken ;;
          match storedEmployee with
          | Some text =>
              match JSON_parse text with
              | Some parsed => setEmployee parsed
              | None => throw JsonError
              end
          | None => ret tt
          end
        else ret tt)
       (fun error => emit (console_error "Error checking auth status:")))
    (setIsLoading false).

Definition login (F : Faults) (answer : FetchResult LoginData.t ErrorData.t)
    (employeeId password : string) : Prog World bool :=
  if negb (Js.truthy BACKEND_URL) then
    emit (Alert_alert "Error" "Backend URL is not configured.") ;;
    ret false
  else
    try_finally
      (try_catch
         (setIsLoading true ;;
          emit (console_log "➡️ Sending login to:") ;;
          emit (console_log "Request body:") ;;
          response <- fetch
            {| url := Js.render BACKEND_URL ++ "/api/auth/login";
               method := "POST";
               headers := [("Content-Type", "application/json")];
               body := login_body employeeId password |}
            answer ;;
          emit (console_log "⬅️ Received response status:") ;;
          match response with
          | Ok2xx _ json =>
              data <- json_of json ;;
              emit (console_log "Login successful:") ;;
              setToken (Some (LoginData.access_token data)) ;;
              setEmployee (Some (LoginData.employee data)) ;;
              setItem F "auth_token"
                (with_auth_token (Some (LoginData.access_token data))) ;;
              setItem F "employee_data"
                (with_employee_data
                   (Some (JSON_stringify (LoginData.employee data)))) ;;
              emit (router_replace "/(tabs)/home") ;;
              ret true
          | NotOk _ json =>
              errorData <- json_of json ;;
              emit (console_warn "Login failed response:") ;;
              emit (Alert_alert "Login Failed"
                      (Js.or_else (ErrorData.detail errorData)
                                  "Invalid credentials")) ;;
              ret false
          end)
         (fun error =>
            emit (console_error "Login error:") ;;
            emit (Alert_alert "Error" "Failed to connect to server") ;;
            ret false))
      (setIsLoading false).

Definition logout (F : Faults) : Prog World unit :=
  try_catch
    (removeItem F "auth_token" (with_auth_token None) ;;
     removeItem F "employee_data" (with_employee_data None) ;;
     setToken None ;;
     setEmployee None ;;
     emit (router_replace "/"))
    (fun error => emit (console_error "Logout error:")).

(** The [value] of [AuthContext.Provider] when the provider renders in
    world [w].  [F] and [answer] are what the store and the network will do
    when the operations are called. *)
Definition value (F : Faults) (answer : FetchResult LoginData.t ErrorData.t)
    (w : World) : AuthContextType.t :=
  {| AuthContextType.employee := employee w;
     AuthContextType.token := token w;
     AuthContextType.login := login F answer;
     AuthContextType.logout := logout F;
     AuthContextType.isLoading := isLoading w |}.

End WithBackend.
End AuthProvider.

(** ** LoginScreen *)

Module LoginScreen.

Record State := {
  employeeId : string;
  password : string;
  showPassword : bool;
  isLoading : bool
}.

(** The cells as [useState] initialises them. *)
Definition initial : State :=
  {| employeeId := "test123"; password := "test123";
     showPassword := false; isLoading := false |}.

Definition setPassword (v : string) : Prog (World * State) unit :=
  local (fun s =>
    {| employeeId := employeeId s; password := v;
       showPassword := showPassword s; isLoading := isLoading s |}).

Definition setIsLoading (v : bool) : Prog (World * State) unit :=
  local (fun s =>
    {| employeeId := employeeId s; password := password s;
       showPassword := showPassword s; isLoading := v |}).

(** A state update made after an [await] reaches the form only if this
    instance of it is still mounted: React drops the updates of a component
    it has unmounted.  [AppContent] renders the spinner in place of the form
    while the provider's [isLoading] is true, so a [login] that gets as far
    as [setIsLoading(true)] resolves into an unmounted instance, and the form
    shown afterwards is a new one. *)
Definition if_mounted (mounted : bool) (update : Prog (World * State) unit)
  : Prog (World * State) unit :=
  if mounted then update else ret tt.

(** [await auth?.login(a, b)]: [undefined] without a context. *)
Definition call_login (auth : option AuthContextType.t) (a b : string)
  : Prog (World * State) (option bool) :=
  match auth with
  | Some ctx => r <- lift (AuthContextType.login ctx a b) ;; ret (Some r)
  | None => ret None
  end.

(** [handleLogin], on the cells of the instance whose button was pressed.
    [mounted]: whether that instance is still mounted when the awaited
    [login] resolves. *)
Definition handleLogin (auth : option AuthContextType.t) (mounted : bool)
  : Prog (World * State) unit :=
  s <- get ;;
  if negb (Js.truthy (Some (Js.trim (employeeId (snd s)))))
     || negb (Js.truthy (Some (Js.trim (password (snd s))))) then
    lift (emit (Alert_alert "Error" "Please enter both Employee ID and Password"))
  else
    setIsLoading true ;;
    success <- call_login auth (Js.trim (employeeId (snd s))) (password (snd s)) ;;
    if_mounted mounted (setIsLoading false) ;;
    match success with
    | Some true => ret tt
    | _ => if_mounted mounted (setPassword "")
    end.

End LoginScreen.

(** ** AppContent: the entry route *)

Module AppContent.

(** The body of the effect that runs when [auth?.isLoading] or
    [auth?.employee] changes. *)
Definition effect (auth : option AuthContextType.t) : Prog World unit :=
  match auth with
  | Some ctx =>
      if negb (AuthContextType.isLoading ctx)
         && Js.present (AuthContextType.employee ctx)
      then emit (router_replace "/(tabs)/home")
      else ret tt
  | None => ret tt
  end.

(** What the component returns. *)
Inductive View := LoadingView | LoginScreenView.

Definition view (auth : option AuthContextType.t) : View :=
  match auth with
  | Some ctx => if AuthContextType.isLoading ctx then LoadingView else LoginScreenView
  | None => LoginScreenView
  end.

End AppContent.

(** ** HomeScreen: the complaint list *)

Module HomeScreen.

Record State := {
  complaints : list Complaint.t;
  loading : bool;
  refreshing : bool
}.

Definition setComplaints (v : list Complaint.t) : Prog (World * State) unit :=
  local (fun s =>
    {| complaints := v; loading := loading s; refreshing := refreshing s |}).

Definition setLoading (v : bool) : Prog (World * State) unit :=
  local (fun s =>
    {| complaints := complaints s; loading := v; refreshing := refreshing s |}).

Definition setRefreshing (v : bool) : Prog (World * State) unit :=
  local (fun s =>
    {| complaints := complaints s; loading := loading s; refreshing := v |}).

Definition getStatusColor (colorCode : string) : string :=
  if colorCode =? "green" then "#48bb78"
  else if colorCode =? "orange" then "#ed8936"
  else if colorCode =? "yellow" then "#ecc94b"
  else "#a0aec0".

Definition getStatusIcon (status : string) : string :=
  if status =? "resolved" then "checkmark-circle"
  else if status =? "active" then "time"
  else if status =? "pending" then "hourglass"
  else "help-circle".

Definition getPriorityColor (priority : string) : string :=
  if priority =? "urgent" then "#e53e3e"
  else if priority =? "high" then "#ff6b35"
  else if priority =? "medium" then "#38b2ac"
  else if priority =? "low" then "#4299e1"
  else "#a0aec0".

(** Which of its three bodies the screen renders: the spinner, the
    "No Complaints" state, or one card per complaint, in order. *)
Inductive View :=
| LoadingView
| EmptyState
| ComplaintCards (cards : list Complaint.t).

Definition view (s : State) : View :=
  if loading s then LoadingView
  else match complaints s with
       | [] => EmptyState
       | _ :: _ => ComplaintCards (complaints s)
       end.

Section WithBackend.
Variable BACKEND_URL : option string.

Definition fetchComplaints (auth : option AuthContextType.t) (isRefresh : bool)
    (answer : FetchResult (list Complaint.t) ErrorData.t)
  : Prog (World * State) unit :=
  match auth with
  | Some ctx =>
      if negb (Js.truthy (AuthContextType.token ctx)) then ret tt
      else
        try_finally
          (try_catch
             ((if negb isRefresh then setLoading true else ret tt) ;;
              response <- lift (fetch
                {| url := Js.render BACKEND_URL ++ "/api/complaints";
                   method := "GET";
                   headers := bearer_headers (AuthContextType.token ctx);
                   body := no_body |}
                answer) ;;
              match response with
              | Ok2xx _ json =>
                  data <- json_of json ;;
                  setComplaints data
              | NotOk status _ =>
                  lift (emit (console_error "Failed to fetch complaints:")) ;;
                  if (status =? 401)%Z then
                    lift (emit (Alert_alert "Session Expired" "Please login again")) ;;
                    lift (unawaited (AuthContextType.logout ctx))
                  else ret tt
              end)
             (fun error =>
                lift (emit (console_error "Error fetching complaints:")) ;;
                lift (emit (Alert_alert "Error" "Failed to load complaints"))))
          (setLoading false ;;
           if isRefresh then setRefreshing false else ret tt)
  | None => ret tt
  end.

(** The pull-to-refresh handler. *)
Definition onRefresh (auth : option AuthContextType.t)
    (answer : FetchResult (list Complaint.t) ErrorData.t)
  : Prog (World * State) unit :=
  setRefreshing true ;;
  unawaited (fetchComplaints auth true answer).

End WithBackend.
End HomeScreen.

(** ** ComplaintDetailScreen *)

Module ComplaintDetailScreen.

Record State := {
  complaint : option ComplaintDetail.t;
  loading : bool;
  updating : bool;
  selectedImage : option string;
  showImageModal : bool
}.

Definition setComplaint (v : option ComplaintDetail.t) : Prog (World * State) unit :=
  local (fun s =>
    {| complaint := v; loading := loading s; updating := updating s;
       selectedImage := selectedImage s; showImageModal := showImageModal s |}).

Definition setLoading (v : bool) : Prog (World * State) unit :=
  local (fun s =>
    {| complaint := complaint s; loading := v; updating := updating s;
       selectedImage := selectedImage s; showImageModal := showImageModal s |}).

Definition setUpdating (v : bool) : Prog (World * State) unit :=
  local (fun s =>
    {| complaint := complaint s; loading := loading s; updating := v;
       selectedImage := selectedImage s; showImageModal := showImageModal s |}).

Definition setSelectedImage (v : option string) : Prog (World * State) unit :=
  local (fun s =>
    {| complaint := complaint s; loading := loading s; updating := updating s;
       selectedImage := v; showImageModal := showImageModal s |}).

Definition setShowImageModal (v : bool) : Prog (World * State) unit :=
  local (fun s =>
    {| complaint := complaint s; loading := loading s; updating := updating s;
       selectedImage := selectedImage s; showImageModal := v |}).

Definition openImageModal (imageBase64 : string) : Prog (World * State) unit :=
  setSelectedImage (Some imageBase64) ;;
  setShowImageModal true.

Definition getStatusColor (colorCode : string) : string :=
  if colorCode =? "green" then "#48bb78"
  else if colorCode =? "orange" then "#ed8936"
  else if colorCode =? "yellow" then "#ecc94b"
  else "#a0aec0".

Definition getPriorityColor (priority : string) : string :=
  if priority =? "urgent" then "#e53e3e"
  else if priority =? "high" then "#ff6b35"
  else if priority =? "medium" then "#38b2ac"
  else if priority =? "low" then "#4299e1"
  else "#a0aec0".

(** The "Update Status" card: the statuses its buttons pass to
    [updateComplaintStatus], in the order the buttons are rendered. *)
Definition statusActions (c : ComplaintDetail.t) : list string :=
  (if negb (ComplaintDetail.status c =? "active") then ["active"] else [])
  ++ (if negb (ComplaintDetail.status c =? "resolved") then ["resolved"] else []).

(** Which of its three bodies the screen renders: the spinner, the
    "Complaint not found" state, or the complaint. *)
Inductive View :=
| LoadingView
| NotFoundView
| DetailView (shown : ComplaintDetail.t).

Definition view (s : State) : View :=
  if loading s then LoadingView
  else match complaint s with
       | None => NotFoundView
       | Some c => DetailView c
       end.

(** What [launchCameraAsync] and [launchImageLibraryAsync] resolve to:
    [assets] is null when the picker was cancelled. *)
Record ImagePickerAsset := {
  base64 : option string
}.

Record ImagePickerResult := {
  canceled : bool;
  assets : option (list ImagePickerAsset)
}.

(** The button pressed in the "Add Progress Photo" dialog. *)
Inductive PhotoChoice := press_Cancel | press_TakePhoto | press_ChooseFromGallery.

Section WithBackend.
Variable BACKEND_URL : option string.

(** The route parameter [id] of [useLocalSearchParams], a string or
    undefined. *)
Variable id : option string.

Definition fetchComplaint (auth : option AuthContextType.t)
    (answer : FetchResult ComplaintDetail.t ErrorData.t)
  : Prog (World * State) unit :=
  match auth with
  | Some ctx =>
      if negb (Js.truthy (AuthContextType.token ctx)) || negb (Js.truthy id)
      then ret tt
      else
        try_finally
          (try_catch
             (setLoading true ;;
              response <- lift (fetch
                {| url := Js.render BACKEND_URL ++ "/api/complaints/" ++ Js.render id;
                   method := "GET";
                   headers := bearer_headers (AuthContextType.token ctx);
                   body := no_body |}
                answer) ;;
              match response with
              | Ok2xx _ json =>
                  data <- json_of json ;;
                  setComplaint (Some data)
              | NotOk status _ =>
                  lift (emit (console_error "Failed to fetch complaint:")) ;;
                  if (status =? 401)%Z then
                    lift (emit (Alert_alert "Session Expired" "Please login again")) ;;
                    lift (unawaited (AuthContextType.logout ctx))
                  else if (status =? 404)%Z then
                    lift (emit (Alert_alert "Not Found" "Complaint not found")) ;;
                    lift (emit router_back)
                  else ret tt
              end)
             (fun error =>
                lift (emit (console_error "Error fetching complaint:")) ;;
                lift (emit (Alert_alert "Error" "Failed to load complaint details"))))
          (setLoading false)
  | None => ret tt
  end.

Definition updateComplaintStatus (auth : option AuthContextType.t)
    (newStatus : string)
    (answer : FetchResult ComplaintDetail.t ErrorData.t)
    (refetch : FetchResult ComplaintDetail.t ErrorData.t)
  : Prog (World * State) unit :=
  s <- get ;;
  match auth, complaint (snd s) with
  | Some ctx, Some c =>
      if negb (Js.truthy (AuthContextType.token ctx)) then ret tt
      else
        try_finally
          (try_catch
             (setUpdating true ;;
              response <- lift (fetch
                {| url := Js.render BACKEND_URL ++ "/api/complaints/"
                          ++ ComplaintDetail.id c;
                   method := "PUT";
                   headers := bearer_headers (AuthContextType.token ctx);
                   body := status_body newStatus
                     (option_map Employee.employee_id (AuthContextType.employee ctx))
                     (option_map Employee.name (AuthContextType.employee ctx)) |}
                answer) ;;
              match response with
              | Ok2xx _ _ =>
                  lift (emit (Alert_alert "Success"
                                ("Complaint status updated to " ++ newStatus))) ;;
                  unawaited (fetchComplaint auth refetch)
              | NotOk _ _ =>
                  lift (emit (Alert_alert "Error" "Failed to update complaint status"))
              end)
             (fun error =>
                lift (emit (console_error "Error updating complaint:")) ;;
                lift (emit (Alert_alert "Error" "Failed to update complaint"))))
          (setUpdating false)
  | _, _ => ret tt
  end.

Definition uploadProgressPhoto (auth : option AuthContextType.t)
    (base64Image : string)
    (answer : FetchResult unit ErrorData.t)
    (refetch : FetchResult ComplaintDetail.t ErrorData.t)
  : Prog (World * State) unit :=
  s <- get ;;
  match auth, complaint (snd s) with
  | Some ctx, Some c =>
      if negb (Js.truthy (AuthContextType.token ctx)) then ret tt
      else
        try_finally
          (try_catch
             (setUpdating true ;;
              response <- lift (fetch
                {| url := Js.render BACKEND_URL ++ "/api/complaints/"
                          ++ ComplaintDetail.id c ++ "/progress-photo";
                   method := "POST";
                   headers := bearer_headers (AuthContextType.token ctx);
                   body := photo_body (ComplaintDetail.id c) base64Image
                                      "Progress update" |}
                answer) ;;
              match response with
              | Ok2xx _ _ =>
                  lift (emit (Alert_alert "Success" "Progress photo added successfully")) ;;
                  unawaited (fetchComplaint auth refetch)
              | NotOk _ _ =>
                  lift (emit (Alert_alert "Error" "Failed to upload progress photo"))
              end)
             (fun error =>
                lift (emit (console_error "Error uploading photo:")) ;;
                lift (emit (Alert_alert "Error" "Failed to upload photo"))))
          (setUpdating false)
  | _, _ => ret tt
  end.

(** The common body of [takePicture] and [pickFromGallery].  [picked] is
    what the launcher resolves to, [None] when it rejects.  A rejection, and
    the [TypeError] of reading [result.assets[0].base64] when the picker was
    not cancelled and gave no asset, both land in the [catch], before any
    effect of the [try]. *)
Definition with_picked (label message : string)
    (auth : option AuthContextType.t) (picked : option ImagePickerResult)
    (answer : FetchResult unit ErrorData.t)
    (refetch : FetchResult ComplaintDetail.t ErrorData.t)
  : Prog (World * State) unit :=
  let caught :=
    lift (emit (console_error label)) ;;
    lift (emit (Alert_alert "Error" message)) in
  match picked with
  | Some result =>
      if canceled result then ret tt
      else
        match assets result with
        | Some (asset :: _) =>
            if Js.truthy (base64 asset)
            then unawaited
                   (uploadProgressPhoto auth (Js.render (base64 asset)) answer refetch)
            else ret tt
        | Some [] => caught
        | None => caught
        end
  | None => caught
  end.

Definition takePicture :=
  with_picked "Error taking picture:" "Failed to take picture".

Definition pickFromGallery :=
  with_picked "Error picking from gallery:" "Failed to pick image".

(** [addProgressPhoto].  [permission] is the [status] that
    [requestCameraPermissionsAsync] resolves with, [None] when it rejects;
    [choice] is the button pressed in the dialog; [camera] and [gallery] are
    what the two launchers would resolve to. *)
Definition addProgressPhoto (auth : option AuthContextType.t)
    (permission : option string) (choice : PhotoChoice)
    (camera gallery : option ImagePickerResult)
    (answer : FetchResult unit ErrorData.t)
    (refetch : FetchResult ComplaintDetail.t ErrorData.t)
  : Prog (World * State) unit :=
  match permission with
  | Some status =>
      if negb (status =? "granted") then
        lift (emit (Alert_alert "Permission Required"
                      "Camera permission is needed to take photos"))
      else
        lift (emit (Alert_alert "Add Progress Photo" "Choose an option")) ;;
        match choice with
        | press_Cancel => ret tt
        | press_TakePhoto => unawaited (takePicture auth camera answer refetch)
        | press_ChooseFromGallery =>
            unawaited (pickFromGallery auth gallery answer refetch)
        end
  | None => lift (emit (console_error "Error requesting camera permission:"))
  end.

End WithBackend.
End ComplaintDetailScreen.

(** ** ProfileScreen *)

Module ProfileScreen.

Record State := {
  profileData : option ProfileData;
  loading : bool
}.

Definition setProfileData (v : option ProfileData) : Prog (World * State) unit :=
  local (fun s => {| profileData := v; loading := loading s |}).

Definition setLoading (v : bool) : Prog (World * State) unit :=
  local (fun s => {| profileData := profileData s; loading := v |}).

(** The button pressed in the "Logout" dialog. *)
Inductive LogoutChoice := press_Cancel | press_Logout.

(** [handleLogout]: the confirmation dialog, then the pressed button's
    [onPress]. *)
Definition handleLogout (auth : option AuthContextType.t) (choice : LogoutChoice)
  : Prog (World * State) unit :=
  lift (emit (Alert_alert "Logout" "Are you sure you want to logout?")) ;;
  match choice with
  | press_Cancel => ret tt
  | press_Logout =>
      match auth with
      | Some ctx => lift (unawaited (AuthContextType.logout ctx))
      | None => ret tt
      end
  end.

Definition getDepartmentIcon (department : string) : string :=
  let d := Js.toLowerCase department in
  if d =? "sanitation" then "trash"
  else if d =? "electrical" then "flash"
  else if d =? "admin" then "shield-checkmark"
  else "person".


(** Which of its three bodies the screen renders: the spinner, the
    "Failed to load profile" state with its Retry button, or the profile. *)
Inductive View :=
| LoadingView
| FailedView
| ProfileView (shown : ProfileData).

Definition view (s : State) : View :=
  if loading s then LoadingView
  else match profileData s with
       | None => FailedView
       | Some p => ProfileView p
       end.

Section WithBackend.
Variable BACKEND_URL : option string.

Definition fetchProfile (auth : option AuthContextType.t)
    (answer : FetchResult ProfileData ErrorData.t)
  : Prog (World * State) unit :=
  match auth with
  | Some ctx =>
      if negb (Js.truthy (AuthContextType.token ctx)) then ret tt
      else
        try_finally
          (try_catch
             (setLoading true ;;
              response <- lift (fetch
                {| url := Js.render BACKEND_URL ++ "/api/profile";
                   method := "GET";
                   headers := bearer_headers (AuthContextType.token ctx);
                   body := no_body |}
                answer) ;;
              match response with
              | Ok2xx _ json =>
                  data <- json_of json ;;
                  setProfileData (Some data)
              | NotOk status _ =>
                  lift (emit (console_error "Failed to fetch profile:")) ;;
                  if (status =? 401)%Z then
                    lift (emit (Alert_alert "Session Expired" "Please login again")) ;;
                    lift (unawaited (AuthContextType.logout ctx))
                  else ret tt
              end)
             (fun error =>
                lift (emit (console_error "Error fetching profile:")) ;;
                lift (emit (Alert_alert "Error" "Failed to load profile data"))))
          (setLoading false)
  | None => ret tt
  end.

End WithBackend.
End ProfileScreen.

(** ** Observations and predicates used in the statements *)

(** The alert dialogs of an event log, as (title, message), in order. *)
Fixpoint alerts (l : list Event) : list (string * string) :=
  match l with
  | Alert_alert title message :: l' => (title, message) :: alerts l'
  | _ :: l' => alerts l'
  | [] => []
  end.

(** The network requests of an event log, in order. *)
Fixpoint requests (l : list Event) : list Request :=
  match l with
  | fetch_call req :: l' => req :: requests l'
  | _ :: l' => requests l'
  | [] => []
  end.

(** The navigation calls of an event log, in order. *)
Fixpoint navigations (l : list Event) : list Event :=
  match l with
  | router_replace href :: l' => router_replace href :: navigations l'
  | router_back :: l' => router_back :: navigations l'
  | _ :: l' => navigations l'
  | [] => []
  end.

(** [!auth?.token]: the guard every authenticated request starts with. *)
Definition token_absent (auth : option AuthContextType.t) : bool :=
  match auth with
  | Some ctx => negb (Js.truthy (AuthContextType.token ctx))
  | None => true
  end.

(** A request that did not succeed: no response, or a status outside
    200..299. *)
Definition failed {A E : Type} (answer : FetchResult A E) : bool :=
  match answer with
  | fetch_rejects => true
  | fetch_resolves (NotOk _ _) => true
  | fetch_resolves (Ok2xx _ _) => false
  end.

Definition empty_storage : AsyncStorage :=
  {| auth_token := None; employee_data := None |}.

(** The in-memory token and employee are both set or both null. *)
Definition paired (w : World) : bool :=
  Bool.eqb (Js.present (token w)) (Js.present (employee w)).

(** Exactly one of the two persisted entries is there. *)
Definition one_entry_only (st : AsyncStorage) : bool :=
  xorb (Js.present (auth_token st)) (Js.present (employee_data st)).

(** The ['employee_data'] entry is missing or is what [login] writes:
    the JSON text of an employee record. *)
Definition written_by_login (st : AsyncStorage) : bool :=
  match employee_data st with
  | Some (JSON_employee _) => true
  | Some _ => false
  | None => true
  end.

(** The world in which the provider mounts: no session in memory, and a
    store that holds what earlier runs of the client left in it. *)
Definition at_startup (w : World) : bool :=
  negb (Js.present (token w)) && negb (Js.present (employee w))
  && written_by_login (storage w).

(** A context value is the provider's, rendered in some world (maybe an
    earlier one than the current: a screen's closure keeps the value of the
    render that created it), or there is no provider above the screen. *)
Inductive provided (BACKEND_URL : option string) : option AuthContextType.t -> Prop :=
| provided_none : provided BACKEND_URL None
| provided_value F answer w :
    provided BACKEND_URL (Some (AuthProvider.value BACKEND_URL F answer w)).

(** One step of the client on the world: an operation of the provider, or
    an operation of a screen, under any behaviour of store and network. *)
Inductive step (BACKEND_URL : option string) : World -> World -> Prop :=
| step_checkAuthStatus F w :
    step BACKEND_URL w (exec (AuthProvider.checkAuthStatus F) w)
| step_login F answer employeeId password w :
    step BACKEND_URL w
      (exec (AuthProvider.login BACKEND_URL F answer employeeId password) w)
| step_logout F w :
    step BACKEND_URL w (exec (AuthProvider.logout F) w)
| step_handleLogin auth mounted s w :
    provided BACKEND_URL auth ->
    step BACKEND_URL w (fst (exec (LoginScreen.handleLogin auth mounted) (w, s)))
| step_fetchComplaints auth isRefresh answer s w :
    provided BACKEND_URL auth ->
    step BACKEND_URL w
      (fst (exec (HomeScreen.fetchComplaints BACKEND_URL auth isRefresh answer) (w, s)))
| step_fetchComplaint id auth answer s w :
    provided BACKEND_URL auth ->
    step BACKEND_URL w
      (fst (exec (ComplaintDetailScreen.fetchComplaint BACKEND_URL id auth answer) (w, s)))
| step_updateComplaintStatus id auth newStatus answer refetch s w :
    provided BACKEND_URL auth ->
    step BACKEND_URL w
      (fst (exec (ComplaintDetailScreen.updateComplaintStatus
                    BACKEND_URL id auth newStatus answer refetch) (w, s)))
| step_uploadProgressPhoto id auth base64Image answer refetch s w :
    provided BACKEND_URL auth ->
    step BACKEND_URL w
      (fst (exec (ComplaintDetailScreen.uploadProgressPhoto
                    BACKEND_URL id auth base64Image answer refetch) (w, s)))
| step_fetchProfile auth answer s w :
    provided BACKEND_URL auth ->
    step BACKEND_URL w
      (fst (exec (ProfileScreen.fetchProfile BACKEND_URL auth answer) (w, s))).

Inductive reachable (BACKEND_URL : option string) (w0 : World) : World -> Prop :=
| reachable_start : reachable BACKEND_URL w0 w0
| reachable_step w w' :
    reachable BACKEND_URL w0 w -> step BACKEND_URL w w' ->
    reachable BACKEND_URL w0 w'.

(** The invariant the reachability proof carries: the session is paired
    and the store holds nothing [JSON.parse] would choke on. *)
Definition well_formed (w : World) : bool :=
  paired w && written_by_login (storage w).

(** Two worlds with the same session, in memory and in the store. *)
Definition same_session (w w' : World) : Prop :=
  storage w' = storage w /\ token w' = token w /\ employee w' = employee w.

(** What a screen can do to the world: add events, run the provider's
    logout, or (the login form) run the provider's login. *)
Inductive screen_effect (BACKEND_URL : option string) (w : World) : World -> Prop :=
| effect_events w' : same_session w w' -> screen_effect BACKEND_URL w w'
| effect_logout F w1 :
    same_session w w1 ->
    screen_effect BACKEND_URL w (exec (AuthProvider.logout F) w1)
| effect_login F answer a b w1 :
    same_session w w1 ->
    screen_effect BACKEND_URL w (exec (AuthProvider.login BACKEND_URL F answer a b) w1).

(** ** Predicates of the further properties *)

(** The world after the process is restarted: the store is kept, the
    provider's cells are what [useState] initialises them to. *)
Definition restart (w : World) : World :=
  {| storage := storage w; employee := None; token := None;
     isLoading := true; events := [] |}.

(** The answer is a response with status 401. *)
Definition unauthorized {A E : Type} (answer : FetchResult A E) : bool :=
  match answer with
  | fetch_resolves (NotOk status _) => (status =? 401)%Z
  | _ => false
  end.

(** The picker delivered an image: it resolved, was not cancelled, and
    its first asset has a non-empty [base64]. *)
Definition delivers_image (picked : option ComplaintDetailScreen.ImagePickerResult)
  : bool :=
  match picked with
  | Some result =>
      negb (ComplaintDetailScreen.canceled result)
      && match ComplaintDetailScreen.assets result with
         | Some (asset :: _) => Js.truthy (ComplaintDetailScreen.base64 asset)
         | _ => false
         end
  | None => false
  end.

(** The camera permission was granted: the request resolved with the
    status ["granted"]. *)
Definition permission_granted (permission : option string) : bool :=
  match permission with
  | Some status => status =? "granted"
  | None => false
  end.

(** The request carries the bearer token of the context, and that token
    is not empty. *)
Definition authorized_by (ctx : AuthContextType.t) (req : Request) : Prop :=
  headers req = bearer_headers (AuthContextType.token ctx)
  /\ Js.truthy (AuthContextType.token ctx) = true.


(** ** Sample data *)

Module Sample.

Definition BACKEND_URL : option string := Some "https://api.example.org".

Definition stats : Employee.PerformanceStats :=
  {| Employee.total_complaints_resolved := 3%float;
     Employee.total_complaints_assigned := 4%float;
     Employee.resolution_rate := 75%float;
     Employee.last_activity := "2024-01-01T00:00:00Z" |}.

Definition asha : Employee.t :=
  {| Employee.id := "e-1";
     Employee.employee_id := "test123";
     Employee.name := "Asha Rao";
     Employee.email := "asha@example.org";
     Employee.department := "sanitation";
     Employee.contact_phone := "555-0100";
     Employee.is_active := true;
     Employee.created_at := "2023-06-01T00:00:00Z";
     Employee.performance_stats := stats |}.

Definition pothole (status : string) : ComplaintDetail.t :=
  {| ComplaintDetail.id := "c-7";
     ComplaintDetail.title := "Pothole";
     ComplaintDetail.description := "Deep pothole near the bus stop";
     ComplaintDetail.citizen_name := "R. Iyer";
     ComplaintDetail.citizen_phone := "555-0111";
     ComplaintDetail.citizen_email := None;
     ComplaintDetail.category := "roads";
     ComplaintDetail.priority := "high";
     ComplaintDetail.status := status;
     ComplaintDetail.color_code := "yellow";
     ComplaintDetail.location_address := "MG Road";
     ComplaintDetail.location_coordinates := None;
     ComplaintDetail.citizen_image := None;
     ComplaintDetail.assigned_employee_id := None;
     ComplaintDetail.assigned_employee_name := None;
     ComplaintDetail.progress_photos := [];
     ComplaintDetail.created_at := "2024-02-01T00:00:00Z";
     ComplaintDetail.updated_at := "2024-02-01T00:00:00Z" |}.

(** The 2xx body of the spec's example login. *)
Definition granted : LoginData.t :=
  {| LoginData.access_token := "tok1"; LoginData.employee := asha |}.

(** The two answers of the spec's example: [200] with the session, and
    [401 {detail: "Invalid credentials"}]. *)
Definition granting : FetchResult LoginData.t ErrorData.t :=
  fetch_resolves (Ok2xx 200 (Some granted)).

Definition refusing : FetchResult LoginData.t ErrorData.t :=
  fetch_resolves
    (NotOk 401 (Some {| ErrorData.detail := Some "Invalid credentials" |})).

(** The world of a first start: nothing stored, nothing in memory. *)
Definition first_start : World :=
  {| storage := empty_storage; employee := None; token := None;
     isLoading := true; events := [] |}.

(** A world with a session in memory and in the store. *)
Definition signed_in : World :=
  {| storage := {| auth_token := Some "tok1";
                   employee_data := Some (JSON_stringify asha) |};
     employee := Some asha; token := Some "tok1";
     isLoading := false; events := [] |}.

(** The context value on a first start: no token. *)
Definition signed_out_auth : option AuthContextType.t :=
  Some (AuthProvider.value BACKEND_URL no_faults fetch_rejects first_start).

(** The context value of [signed_in], over a store and a network that
    work. *)
Definition ctx : AuthContextType.t :=
  AuthProvider.value BACKEND_URL no_faults fetch_rejects signed_in.

Definition auth : option AuthContextType.t := Some ctx.

(** The detail screen showing the pending pothole complaint. *)
Definition detail : ComplaintDetailScreen.State :=
  {| ComplaintDetailScreen.complaint := Some (pothole "pending");
     ComplaintDetailScreen.loading := false;
     ComplaintDetailScreen.updating := false;
     ComplaintDetailScreen.selectedImage := None;
     ComplaintDetailScreen.showImageModal := false |}.

Definition home : HomeScreen.State :=
  {| HomeScreen.complaints := []; HomeScreen.loading := true;
     HomeScreen.refreshing := false |}.

(** A store left with the token alone. *)
Definition token_only : World :=
  {| storage := {| auth_token := Some "tok1"; employee_data := None |};
     employee := None; token := None; isLoading := true; events := [] |}.

(** A store whose employee entry is not JSON. *)
Definition foreign_store : World :=
  {| storage := {| auth_token := Some "tok1";
                   employee_data := Some (not_JSON "{") |};
     employee := None; token := None; isLoading := true; events := [] |}.

(** A store whose employee entry is the text [null]. *)
Definition null_employee_store : World :=
  {| storage := {| auth_token := Some "tok1";
                   employee_data := Some JSON_null |};
     employee := None; token := None; isLoading := true; events := [] |}.

(** The world in which the login form is on screen: the restore has run
    and found nothing. *)
Definition at_login : World :=
  {| storage := empty_storage; employee := None; token := None;
     isLoading := false; events := [] |}.

(** The login form with white space around both fields. *)
Definition padded_form : LoginScreen.State :=
  {| LoginScreen.employeeId := " test123 "; LoginScreen.password := " pw ";
     LoginScreen.showPassword := false; LoginScreen.isLoading := false |}.

(** U+00A0 NO-BREAK SPACE, in UTF-8. *)
Definition nbsp : string := String "194"%char (String "160"%char "").

(** The login form with an employee id of white space only: a space, a
    no-break space and a TAB. *)
Definition blank_form : LoginScreen.State :=
  {| LoginScreen.employeeId := " " ++ nbsp ++ String "009"%char "";
     LoginScreen.password := "test123";
     LoginScreen.showPassword := false; LoginScreen.isLoading := false |}.

(** The context value of the login form on a first start, over a backend
    that grants the login. *)
Definition login_auth : option AuthContextType.t :=
  Some (AuthProvider.value BACKEND_URL no_faults granting first_start).

(** A store whose first [removeItem] rejects. *)
Definition removal_fails : Faults :=
  {| getItem_rejects := fun _ => false;
     setItem_rejects := fun _ => false;
     removeItem_rejects := fun key => key =? "auth_token" |}.

End Sample.

(** * Proofs *)

Open Scope list_scope.

(** Unfolds the programs, the monad and the record projections, so that a
    program applied to a state given by its fields computes. *)
Ltac unfold_prog :=
  cbv [exec result bind ret throw try_catch try_finally unawaited modify get lift
       local emit setToken setEmployee setIsLoading setStorage getItem setItem
       removeItem fetch json_of fst snd
       storage employee token isLoading events
       auth_token employee_data with_auth_token with_employee_data
       AuthContextType.employee AuthContextType.token AuthContextType.login
       AuthContextType.logout AuthContextType.isLoading
       AuthProvider.checkAuthStatus AuthProvider.login AuthProvider.logout
       AuthProvider.value
       LoginScreen.handleLogin LoginScreen.if_mounted LoginScreen.call_login
       LoginScreen.setPassword
       LoginScreen.setIsLoading LoginScreen.employeeId LoginScreen.password
       LoginScreen.showPassword LoginScreen.isLoading
       HomeScreen.fetchComplaints HomeScreen.setComplaints HomeScreen.setLoading
       HomeScreen.setRefreshing HomeScreen.complaints HomeScreen.loading
       HomeScreen.refreshing
       ComplaintDetailScreen.fetchComplaint ComplaintDetailScreen.updateComplaintStatus
       ComplaintDetailScreen.uploadProgressPhoto ComplaintDetailScreen.setComplaint
       ComplaintDetailScreen.setLoading ComplaintDetailScreen.setUpdating
       ComplaintDetailScreen.complaint ComplaintDetailScreen.loading
       ComplaintDetailScreen.updating ComplaintDetailScreen.selectedImage
       ComplaintDetailScreen.showImageModal
       ProfileScreen.fetchProfile ProfileScreen.setProfileData ProfileScreen.setLoading
       ProfileScreen.profileData ProfileScreen.loading].

(** Replaces every state of the context by its fields. *)
Ltac open_records :=
  repeat match goal with
  | p : (World * _)%type |- _ => destruct p
  | w : World |- _ => destruct w as [[? ?] ? ? ? ?]
  | s : LoginScreen.State |- _ => destruct s
  | s : HomeScreen.State |- _ => destruct s
  | s : ComplaintDetailScreen.State |- _ => destruct s
  | s : ProfileScreen.State |- _ => destruct s
  | c : AuthContextType.t |- _ => destruct c
  end;
  cbn [storage employee token isLoading events auth_token employee_data
       AuthContextType.employee AuthContextType.token
       LoginScreen.employeeId LoginScreen.password
       ComplaintDetailScreen.complaint fst snd] in *.

(** Case analysis on what the environment decides: a store call that may
    reject, a truthiness test, a status or string comparison, a variable a
    [match] is stuck on. *)
Ltac split_env :=
  match goal with
  | |- context [getItem_rejects ?F ?k] => destruct (getItem_rejects F k)
  | |- context [setItem_rejects ?F ?k] => destruct (setItem_rejects F k)
  | |- context [removeItem_rejects ?F ?k] => destruct (removeItem_rejects F k)
  | |- context [Js.truthy ?v] => first [is_var v; destruct v | destruct (Js.truthy v)]
  | |- context [(?a =? ?b)%Z] => destruct (a =? b)%Z
  | |- context [(?a =? ?b)%string] => destruct (a =? b)%string
  | |- context [match ?x with _ => _ end] => is_var x; destruct x
  end.

(** Case analysis on a variable a [match] of the goal is stuck on. *)
Ltac break_shown :=
  match goal with
  | |- context [match ?x with _ => _ end] => is_var x; destruct x
  end.

Ltac by_cases := unfold_prog; cbn; repeat (split_env; cbn); try reflexivity.

(** ** The event log *)

Lemma alerts_app (l l' : list Event) : alerts (l ++ l') = alerts l ++ alerts l'.
Proof.
  induction l as [|e l IH]; [reflexivity|].
  destruct e; cbn; rewrite IH; reflexivity.
Qed.

Lemma requests_app (l l' : list Event) : requests (l ++ l') = requests l ++ requests l'.
Proof.
  induction l as [|e l IH]; [reflexivity|].
  destruct e; cbn; rewrite IH; reflexivity.
Qed.

Lemma navigations_app (l l' : list Event) :
  navigations (l ++ l') = navigations l ++ navigations l'.
Proof.
  induction l as [|e l IH]; [reflexivity|].
  destruct e; cbn; rewrite IH; reflexivity.
Qed.

Ltac tidy_events :=
  repeat rewrite ?alerts_app, ?requests_app, ?navigations_app;
  cbn [alerts requests navigations app];
  rewrite ?app_nil_r.

(** ** Restore *)

(** C10: at startup, with exactly one of the two persisted entries
    there, [checkAuthStatus] loads neither: the in-memory token and employee
    both stay null, whatever the store calls do. *)
Theorem restore_needs_both_entries (F : Faults) (w : World) :
  token w = None -> employee w = None ->
  one_entry_only (storage w) = true ->
  token (exec (AuthProvider.checkAuthStatus F) w) = None
  /\ employee (exec (AuthProvider.checkAuthStatus F) w) = None.
Proof.
  intros Ht He Hone. open_records. subst.
  unfold one_entry_only in Hone. cbn in Hone.
  unfold_prog.
  destruct (getItem_rejects F "auth_token"); [auto|].
  destruct (getItem_rejects F "employee_data"); [auto|].
  match goal with
  | H : xorb (Js.present ?a) (Js.present ?b) = true |- _ =>
      destruct a, b; cbn in H; try discriminate H
  end; cbn; rewrite ?andb_false_r; auto.
Qed.

Lemma restore_needs_both_entries_witness :
  token (exec (AuthProvider.checkAuthStatus no_faults) Sample.token_only) = None
  /\ employee (exec (AuthProvider.checkAuthStatus no_faults) Sample.token_only) = None.
Proof.
  apply (@restore_needs_both_entries no_faults Sample.token_only); reflexivity.
Defined.

(** With both entries there, the session is what the store holds. *)
Lemma restore_loads_stored_session (w : World) (stored : string) (e : Employee.t) :
  auth_token (storage w) = Some stored ->
  employee_data (storage w) = Some (JSON_stringify e) ->
  stored <> "" ->
  token (exec (AuthProvider.checkAuthStatus no_faults) w) = Some stored
  /\ employee (exec (AuthProvider.checkAuthStatus no_faults) w) = Some e
  /\ isLoading (exec (AuthProvider.checkAuthStatus no_faults) w) = false.
Proof.
  intros Ht He Hne. open_records. subst.
  unfold_prog. cbn.
  destruct (stored =? "")%string eqn:Heq; [|cbn; auto].
  apply String.eqb_eq in Heq. contradiction.
Qed.

(** An employee entry that is not JSON makes [JSON.parse] throw after
    [setToken] has run: this is why the invariant below starts from a store
    that the client itself wrote. *)
Remark restore_from_foreign_store :
  token (exec (AuthProvider.checkAuthStatus no_faults) Sample.foreign_store) = Some "tok1"
  /\ employee (exec (AuthProvider.checkAuthStatus no_faults) Sample.foreign_store) = None
  /\ events (exec (AuthProvider.checkAuthStatus no_faults) Sample.foreign_store)
     = [console_error "Error checking auth status:"].
Proof. vm_compute. repeat split; reflexivity. Qed.

(** ** Login *)

(** C3: whenever [login] returns success, the response was a 2xx with a
    body, the in-memory token and employee are the returned ones, the
    persisted token equals the in-memory token, the persisted employee entry
    is the JSON text of the in-memory employee, and the caller has been
    navigated to the authenticated area. *)
Theorem login_success_stores_session
    (BACKEND_URL : option string) (F : Faults)
    (answer : FetchResult LoginData.t ErrorData.t)
    (employeeId password : string) (w w' : World) :
  AuthProvider.login BACKEND_URL F answer employeeId password w = (Val true, w') ->
  exists status data,
    answer = fetch_resolves (Ok2xx status (Some data))
    /\ token w' = Some (LoginData.access_token data)
    /\ employee w' = Some (LoginData.employee data)
    /\ auth_token (storage w') = token w'
    /\ employee_data (storage w') = option_map JSON_stringify (employee w')
    /\ navigations (events w')
       = navigations (events w) ++ [router_replace "/(tabs)/home"].
Proof.
  destruct w as [[stored_token stored_employee] e t loading log].
  unfold_prog.
  destruct (Js.truthy BACKEND_URL); cbn; [|discriminate].
  destruct answer as [|[status [data|]|status [errorData|]]]; cbn;
    try discriminate.
  destruct (setItem_rejects F "auth_token"); cbn; [discriminate|].
  destruct (setItem_rejects F "employee_data"); cbn; [discriminate|].
  intros H; injection H as <-. cbn.
  exists status, data. tidy_events. repeat split; reflexivity.
Qed.

Lemma login_success_stores_session_witness :
  let attempt :=
    AuthProvider.login Sample.BACKEND_URL no_faults Sample.granting
      "test123" "test123" in
  let w' := exec attempt Sample.first_start in
  exists status data,
    Sample.granting = fetch_resolves (Ok2xx status (Some data))
    /\ token w' = Some (LoginData.access_token data)
    /\ employee w' = Some (LoginData.employee data)
    /\ auth_token (storage w') = token w'
    /\ employee_data (storage w') = option_map JSON_stringify (employee w')
    /\ navigations (events w')
       = navigations (events Sample.first_start) ++ [router_replace "/(tabs)/home"].
Proof.
  intros attempt w'.
  apply (@login_success_stores_session Sample.BACKEND_URL no_faults
           Sample.granting "test123" "test123" Sample.first_start w').
  vm_compute. reflexivity.
Defined.

(** X27: A 2xx response with a body does make [login] return success, when the
    backend URL is configured and the two store writes go through. *)
Lemma login_2xx_returns_success
    (BACKEND_URL : option string) (F : Faults) (status : Z) (data : LoginData.t)
    (employeeId password : string) (w : World) :
  Js.truthy BACKEND_URL = true ->
  setItem_rejects F "auth_token" = false ->
  setItem_rejects F "employee_data" = false ->
  result (AuthProvider.login BACKEND_URL F
            (fetch_resolves (Ok2xx status (Some data))) employeeId password) w
  = Val true.
Proof.
  intros HB H1 H2. open_records. unfold_prog. rewrite HB, H1, H2. reflexivity.
Qed.

(** C4: a login attempt answered with a status outside 2xx returns
    failure, leaves the store and the in-memory token and employee as they
    were, does not navigate, and shows one alert: the server's [detail] when
    the body has a non-empty one, and a generic message otherwise. *)
Theorem login_failure_leaves_session
    (BACKEND_URL : option string) (F : Faults) (status : Z)
    (json : option ErrorData.t) (employeeId password : string) (w : World) :
  Js.truthy BACKEND_URL = true ->
  let attempt := AuthProvider.login BACKEND_URL F
                   (fetch_resolves (NotOk status json)) employeeId password in
  let w' := exec attempt w in
  result attempt w = Val false
  /\ storage w' = storage w
  /\ token w' = token w
  /\ employee w' = employee w
  /\ isLoading w' = false
  /\ navigations (events w') = navigations (events w)
  /\ alerts (events w')
     = alerts (events w)
       ++ [match json with
           | Some {| ErrorData.detail := Some message |} =>
               if (message =? "")%string
               then ("Login Failed", "Invalid credentials")
               else ("Login Failed", message)
           | Some {| ErrorData.detail := None |} =>
               ("Login Failed", "Invalid credentials")
           | None => ("Error", "Failed to connect to server")
           end].
Proof.
  intros HB. open_records. unfold_prog. rewrite HB. cbn.
  destruct json as [[[message|]]|]; cbn; tidy_events;
    try (destruct (message =? "")%string); repeat split; reflexivity.
Qed.

Lemma login_failure_leaves_session_witness :
  let attempt :=
    AuthProvider.login Sample.BACKEND_URL no_faults
      (fetch_resolves
         (NotOk 401 (Some {| ErrorData.detail := Some "Invalid credentials" |})))
      "test123" "test123" in
  let w' := exec attempt Sample.signed_in in
  result attempt Sample.signed_in = Val false
  /\ storage w' = storage Sample.signed_in
  /\ token w' = token Sample.signed_in
  /\ employee w' = employee Sample.signed_in
  /\ isLoading w' = false
  /\ navigations (events w') = navigations (events Sample.signed_in)
  /\ alerts (events w')
     = alerts (events Sample.signed_in) ++ [("Login Failed", "Invalid credentials")].
Proof.
  apply (@login_failure_leaves_session Sample.BACKEND_URL no_faults 401
           (Some {| ErrorData.detail := Some "Invalid credentials" |})
           "test123" "test123" Sample.signed_in).
  reflexivity.
Defined.

(** ** Logout *)

(** C5, as the spec states it, fails: when the first [removeItem]
    rejects, [logout] only logs; the in-memory token and employee stay set
    and nothing navigates. *)
Lemma logout_keeps_session_when_removal_fails :
  let w' := exec (AuthProvider.logout Sample.removal_fails) Sample.signed_in in
  token w' = Some "tok1"
  /\ employee w' = Some Sample.asha
  /\ storage w' = storage Sample.signed_in
  /\ events w' = [console_error "Logout error:"].
Proof. vm_compute. repeat split; reflexivity. Qed.

(** C5 (amended): [logout] never throws and shows no alert.  When both
    removals go through it empties the store, nulls the in-memory token and
    employee, and navigates to ["/"]; when a removal rejects, the failure is
    logged and nothing else is reported. *)
Theorem logout_clears_session_when_removal_succeeds (F : Faults) (w : World) :
  let w' := exec (AuthProvider.logout F) w in
  result (AuthProvider.logout F) w = Val tt
  /\ alerts (events w') = alerts (events w)
  /\ if removeItem_rejects F "auth_token" || removeItem_rejects F "employee_data"
     then events w' = events w ++ [console_error "Logout error:"]
     else storage w' = empty_storage /\ token w' = None /\ employee w' = None
          /\ events w' = events w ++ [router_replace "/"].
Proof.
  open_records. unfold_prog.
  destruct (removeItem_rejects F "auth_token"); cbn.
  - rewrite alerts_app, app_nil_r. auto.
  - destruct (removeItem_rejects F "employee_data"); cbn;
      rewrite alerts_app, app_nil_r; repeat split; reflexivity.
Qed.

(** ** The session invariant *)

(** Splits a world with a [well_formed] hypothesis into the shapes its
    session can have. *)
Ltac case_session H :=
  open_records;
  unfold well_formed, paired, written_by_login in H; cbn in H;
  repeat match goal with
  | x : option _ |- _ =>
      match type of H with context [x] => destruct x as [[| |]|] || destruct x end
  end;
  cbn in H; try discriminate H.

Lemma checkAuthStatus_well_formed (F : Faults) (w : World) :
  well_formed w = true ->
  well_formed (exec (AuthProvider.checkAuthStatus F) w) = true.
Proof. intros H. case_session H; by_cases. Qed.

Lemma login_well_formed
    (BACKEND_URL : option string) (F : Faults)
    (answer : FetchResult LoginData.t ErrorData.t)
    (employeeId password : string) (w : World) :
  well_formed w = true ->
  well_formed
    (exec (AuthProvider.login BACKEND_URL F answer employeeId password) w) = true.
Proof. intros H. case_session H; by_cases. Qed.

Lemma logout_well_formed (F : Faults) (w : World) :
  well_formed w = true -> well_formed (exec (AuthProvider.logout F) w) = true.
Proof. intros H. case_session H; by_cases. Qed.

Lemma well_formed_same_session (w w' : World) :
  same_session w w' -> well_formed w' = well_formed w.
Proof.
  intros (Hs & Ht & He). unfold well_formed, paired. now rewrite Hs, Ht, He.
Qed.

(** The same unfolding, leaving the provider's [login] and [logout]
    folded. *)
Ltac unfold_screen :=
  cbv [exec result bind ret throw try_catch try_finally unawaited modify get lift
       local emit fetch json_of fst snd
       storage employee token isLoading events
       AuthContextType.employee AuthContextType.token AuthContextType.login
       AuthContextType.logout AuthContextType.isLoading
       AuthProvider.value
       LoginScreen.handleLogin LoginScreen.if_mounted LoginScreen.call_login
       LoginScreen.setPassword
       LoginScreen.setIsLoading LoginScreen.employeeId LoginScreen.password
       LoginScreen.showPassword LoginScreen.isLoading
       HomeScreen.fetchComplaints HomeScreen.setComplaints HomeScreen.setLoading
       HomeScreen.setRefreshing HomeScreen.complaints HomeScreen.loading
       HomeScreen.refreshing
       ComplaintDetailScreen.fetchComplaint ComplaintDetailScreen.updateComplaintStatus
       ComplaintDetailScreen.uploadProgressPhoto ComplaintDetailScreen.setComplaint
       ComplaintDetailScreen.setLoading ComplaintDetailScreen.setUpdating
       ComplaintDetailScreen.complaint ComplaintDetailScreen.loading
       ComplaintDetailScreen.updating ComplaintDetailScreen.selectedImage
       ComplaintDetailScreen.showImageModal
       ProfileScreen.fetchProfile ProfileScreen.setProfileData ProfileScreen.setLoading
       ProfileScreen.profileData ProfileScreen.loading].

(** As [split_env], for a screen: a call of the provider is named, not
    unfolded. *)
Ltac split_screen :=
  match goal with
  | |- context [AuthProvider.logout ?F ?w] =>
      let E := fresh "E" in
      let o := fresh "o" in
      let w' := fresh "w'" in
      destruct (AuthProvider.logout F w) as [o w'] eqn:E;
      apply (f_equal (@snd _ _)) in E;
      change (exec (AuthProvider.logout F) w = w') in E
  | |- context [AuthProvider.login ?B ?F ?r ?a ?b ?w] =>
      let E := fresh "E" in
      let o := fresh "o" in
      let w' := fresh "w'" in
      destruct (AuthProvider.login B F r a b w) as [o w'] eqn:E;
      apply (f_equal (@snd _ _)) in E;
      change (exec (AuthProvider.login B F r a b) w = w') in E
  | |- _ => split_env
  end.

Ltac screen_leaf :=
  subst;
  first
    [ apply effect_events; repeat split; reflexivity
    | apply effect_logout; repeat split; reflexivity
    | apply effect_login; repeat split; reflexivity ].

Ltac by_screen_cases :=
  open_records; unfold_screen; cbn; repeat (split_screen; cbn); screen_leaf.

Lemma handleLogin_effect BACKEND_URL auth mounted s w :
  provided BACKEND_URL auth ->
  screen_effect BACKEND_URL w
    (fst (exec (LoginScreen.handleLogin auth mounted) (w, s))).
Proof. intros []; destruct mounted; by_screen_cases. Qed.

Lemma fetchComplaints_effect BACKEND_URL auth isRefresh answer s w :
  provided BACKEND_URL auth ->
  screen_effect BACKEND_URL w
    (fst (exec (HomeScreen.fetchComplaints BACKEND_URL auth isRefresh answer) (w, s))).
Proof. intros []; by_screen_cases. Qed.

Lemma fetchComplaint_effect BACKEND_URL id auth answer s w :
  provided BACKEND_URL auth ->
  screen_effect BACKEND_URL w
    (fst (exec (ComplaintDetailScreen.fetchComplaint BACKEND_URL id auth answer) (w, s))).
Proof. intros []; by_screen_cases. Qed.

Lemma updateComplaintStatus_effect BACKEND_URL id auth newStatus answer refetch s w :
  provided BACKEND_URL auth ->
  screen_effect BACKEND_URL w
    (fst (exec (ComplaintDetailScreen.updateComplaintStatus
                  BACKEND_URL id auth newStatus answer refetch) (w, s))).
Proof. intros []; by_screen_cases. Qed.

Lemma uploadProgressPhoto_effect BACKEND_URL id auth base64Image answer refetch s w :
  provided BACKEND_URL auth ->
  screen_effect BACKEND_URL w
    (fst (exec (ComplaintDetailScreen.uploadProgressPhoto
                  BACKEND_URL id auth base64Image answer refetch) (w, s))).
Proof. intros []; by_screen_cases. Qed.

Lemma fetchProfile_effect BACKEND_URL auth answer s w :
  provided BACKEND_URL auth ->
  screen_effect BACKEND_URL w
    (fst (exec (ProfileScreen.fetchProfile BACKEND_URL auth answer) (w, s))).
Proof. intros []; by_screen_cases. Qed.

Lemma screen_effect_well_formed BACKEND_URL w w' :
  screen_effect BACKEND_URL w w' -> well_formed w = true -> well_formed w' = true.
Proof.
  intros [w1 Hs | F w1 Hs | F answer a b w1 Hs] H.
  - now rewrite (well_formed_same_session Hs).
  - apply logout_well_formed. now rewrite (well_formed_same_session Hs).
  - apply login_well_formed. now rewrite (well_formed_same_session Hs).
Qed.

Lemma step_well_formed (BACKEND_URL : option string) (w w' : World) :
  step BACKEND_URL w w' -> well_formed w = true -> well_formed w' = true.
Proof.
  intros Hstep.
  destruct Hstep as
    [F w | F answer employeeId password w | F w
    | auth mounted s w Hauth | auth isRefresh answer s w Hauth
    | id auth answer s w Hauth | id auth newStatus answer refetch s w Hauth
    | id auth base64Image answer refetch s w Hauth | auth answer s w Hauth].
  - apply checkAuthStatus_well_formed.
  - apply login_well_formed.
  - apply logout_well_formed.
  - eapply screen_effect_well_formed, handleLogin_effect, Hauth.
  - eapply screen_effect_well_formed, fetchComplaints_effect, Hauth.
  - eapply screen_effect_well_formed, fetchComplaint_effect, Hauth.
  - eapply screen_effect_well_formed, updateComplaintStatus_effect, Hauth.
  - eapply screen_effect_well_formed, uploadProgressPhoto_effect, Hauth.
  - eapply screen_effect_well_formed, fetchProfile_effect, Hauth.
Qed.

Lemma at_startup_well_formed (w : World) :
  at_startup w = true -> well_formed w = true.
Proof.
  unfold at_startup, well_formed, paired. intros H.
  apply andb_prop in H as [Hmem Hstore].
  apply andb_prop in Hmem as [Ht He].
  destruct (token w), (employee w); try discriminate. now rewrite Hstore.
Qed.

(** C2, as the spec states it, fails: the restore sets the token before it
    parses the employee entry, and takes whatever the parse gives.  With a
    token in the store and an employee entry that is not JSON, or that is
    the text [null], the client starts with no session in memory and the
    restore leaves a token without an employee. *)
Lemma restore_leaves_token_without_employee :
  let broken := exec (AuthProvider.checkAuthStatus no_faults) Sample.foreign_store in
  let null := exec (AuthProvider.checkAuthStatus no_faults) Sample.null_employee_store in
  (paired Sample.foreign_store = true
   /\ reachable Sample.BACKEND_URL Sample.foreign_store broken
   /\ token broken = Some "tok1" /\ employee broken = None
   /\ paired broken = false)
  /\ (paired Sample.null_employee_store = true
      /\ reachable Sample.BACKEND_URL Sample.null_employee_store null
      /\ token null = Some "tok1" /\ employee null = None
      /\ paired null = false).
Proof.
  cbv zeta.
  split; (split; [reflexivity|]);
    (split; [eapply reachable_step; [apply reachable_start | apply step_checkAuthStatus]|]);
    vm_compute; repeat split; reflexivity.
Qed.

(** C2 (amended): from a start with no session in memory and a store
    whose employee entry, if any, is the JSON text of an employee record
    (what [login] writes), and with every 2xx login body carrying a token
    and an employee record ([LoginData.t]), every world the client reaches
    (by restore, by a login with any outcome, by logout, by any screen
    operation, 401 handling included, under any behaviour of store and
    network) has the in-memory token and employee both set or both null. *)
Theorem token_and_employee_paired (BACKEND_URL : option string) (w0 w : World) :
  at_startup w0 = true -> reachable BACKEND_URL w0 w -> paired w = true.
Proof.
  intros Hstart Hreach.
  assert (Hwf : well_formed w = true).
  { induction Hreach as [|w w' _ IH Hstep].
    - now apply at_startup_well_formed.
    - exact (step_well_formed Hstep IH). }
  unfold well_formed in Hwf. now apply andb_prop in Hwf.
Qed.

Lemma token_and_employee_paired_witness :
  paired
    (exec (AuthProvider.logout Sample.removal_fails)
       (exec (AuthProvider.login Sample.BACKEND_URL no_faults Sample.granting
                "test123" "test123")
          (exec (AuthProvider.checkAuthStatus no_faults) Sample.token_only)))
  = true.
Proof.
  apply (@token_and_employee_paired Sample.BACKEND_URL Sample.token_only).
  - reflexivity.
  - eapply reachable_step; [eapply reachable_step; [eapply reachable_step|]|].
    + apply reachable_start.
    + apply step_checkAuthStatus.
    + apply step_login.
    + apply step_logout.
Defined.

(** ** The login form *)

Lemma trimStart_step (s : string) :
  Js.trimStart s
  = match Js.strip_space s with
    | Some s' => Js.trimStart s'
    | None => s
    end.
Proof.
  destruct s as [|c1 s1]; [reflexivity|]. cbn [Js.trimStart Js.strip_space].
  destruct (Js.is_space1 c1); [reflexivity|].
  destruct s1 as [|c2 s2]; [reflexivity|].
  destruct (Js.is_space2 c1 c2); [reflexivity|].
  destruct s2 as [|c3 s3]; [reflexivity|].
  destruct (Js.is_space3 c1 c2 c3); reflexivity.
Qed.

Lemma strip_space_shorter (s s' : string) :
  Js.strip_space s = Some s' -> String.length s' < String.length s.
Proof.
  destruct s as [|c1 [|c2 [|c3 s3]]]; cbn [Js.strip_space];
    repeat match goal with |- context [if ?b then _ else _] => destruct b end;
    intros H; inversion H; subst; cbn; lia.
Qed.

Lemma strip_space_app (s s' r : string) :
  Js.strip_space s = Some s' -> Js.strip_space (s ++ r)%string = Some (s' ++ r)%string.
Proof.
  destruct s as [|c1 [|c2 [|c3 s3]]]; cbn [Js.strip_space append];
    repeat match goal with |- context [if ?b then _ else _] => destruct b eqn:? end;
    intros H; inversion H; subst; try reflexivity.
Qed.

(** Induction along the code points [trimStart] strips. *)
Lemma trimStart_ind (P : string -> Prop) :
  (forall s, Js.strip_space s = None -> P s) ->
  (forall s s', Js.strip_space s = Some s' -> P s' -> P s) ->
  forall s, P s.
Proof.
  intros Hstop Hstep s.
  remember (String.length s) as n eqn:Hn.
  revert s Hn. induction n as [n IH] using lt_wf_ind. intros s ->.
  destruct (Js.strip_space s) as [s'|] eqn:Hs; [|auto].
  apply (Hstep s s' Hs). apply (IH (String.length s')); [|reflexivity].
  now apply strip_space_shorter.
Qed.

(** What [trimStart] leaves starts with no white space. *)
Lemma trimStart_stripped (s : string) : Js.strip_space (Js.trimStart s) = None.
Proof.
  induction s as [s Hs | s s' Hs IH] using trimStart_ind;
    rewrite trimStart_step, Hs; assumption.
Qed.

Lemma trimStart_fixed (s : string) : Js.strip_space s = None -> Js.trimStart s = s.
Proof. intros H. now rewrite trimStart_step, H. Qed.

(** White space in front of a string does not change what [trimStart]
    leaves of it. *)
Lemma trimStart_app (s r : string) :
  Js.trimStart s = "" -> Js.trimStart (s ++ r)%string = Js.trimStart r.
Proof.
  induction s as [s Hs | s s' Hs IH] using trimStart_ind.
  - rewrite (trimStart_fixed _ Hs). now intros ->.
  - rewrite trimStart_step, Hs. intros H.
    rewrite (trimStart_step (s ++ r)%string), (strip_space_app _ r Hs). auto.
Qed.

(** [trimEnd] cuts off a tail that is white space throughout. *)
Lemma trimEnd_split (s : string) :
  exists r, s = (Js.trimEnd s ++ r)%string /\ Js.trimStart r = "".
Proof.
  induction s as [|c s (r & Hr & Hws)]; [now exists ""|].
  cbn [Js.trimEnd].
  destruct (Js.trimStart (String c s) =? "")%string eqn:H.
  - exists (String c s). split; [reflexivity | now apply String.eqb_eq].
  - exists r. split; [cbn; now rewrite <- Hr | assumption].
Qed.

Lemma trimEnd_idempotent (s : string) : Js.trimEnd (Js.trimEnd s) = Js.trimEnd s.
Proof.
  induction s as [|c s IH]; [reflexivity|].
  cbn [Js.trimEnd].
  destruct (Js.trimStart (String c s) =? "")%string eqn:H; [reflexivity|].
  cbn [Js.trimEnd]. rewrite IH.
  destruct (Js.trimStart (String c (Js.trimEnd s)) =? "")%string eqn:H'; [|reflexivity].
  apply String.eqb_eq in H'.
  destruct (trimEnd_split s) as (r & Hr & Hws).
  pose proof (trimStart_app (String c (Js.trimEnd s)) r H') as Happ.
  cbn [append] in Happ. rewrite <- Hr, Hws in Happ.
  rewrite Happ in H. discriminate.
Qed.

Lemma trimEnd_stripped (s : string) :
  Js.strip_space s = None -> Js.strip_space (Js.trimEnd s) = None.
Proof.
  intros H. destruct (trimEnd_split s) as (r & Hr & _).
  destruct (Js.strip_space (Js.trimEnd s)) as [t|] eqn:Ht; [|reflexivity].
  apply (strip_space_app _ r) in Ht. rewrite <- Hr, H in Ht. discriminate.
Qed.

Lemma trim_idempotent (s : string) : Js.trim (Js.trim s) = Js.trim s.
Proof.
  unfold Js.trim.
  rewrite (trimStart_fixed _ (trimEnd_stripped _ (trimStart_stripped s))).
  apply trimEnd_idempotent.
Qed.

Lemma eqb_empty_false (s : string) : (s =? "")%string = false -> s <> "".
Proof. intros H ->. discriminate. Qed.

(** C9, as the spec states it, fails: the password reaches [login] as
    typed.  With [" test123 "] and [" pw "] in the form, the request carries
    the trimmed employee id and the password with its spaces. *)
Lemma handleLogin_sends_password_as_typed :
  let after :=
    exec (LoginScreen.handleLogin Sample.login_auth false)
         (Sample.first_start, Sample.padded_form) in
  requests (events (fst after))
  = [{| url := "https://api.example.org/api/auth/login";
        method := "POST";
        headers := [("Content-Type", "application/json")];
        body := login_body "test123" " pw " |}]
  /\ Js.trim " pw " = "pw".
Proof. vm_compute. split; reflexivity. Qed.

(** C9 (amended): with [a] the trimmed employee id and [b] the password as
    typed, trimming being that of [String.prototype.trim] (the Unicode white
    space and line terminators, not only the ASCII ones).  When [a] or the
    trimmed password is empty, [handleLogin] shows the validation alert and
    does nothing else, whatever the context: no login call.  Otherwise [a]
    is non-empty and already trimmed, [b] is non-empty after trimming,
    [handleLogin] depends on the context's [login] only through its value at
    [(a, b)], and with the provider's [login] the one request sent carries
    [a] and [b].  All of it holds whether or not the form is still mounted
    when the login resolves. *)
Theorem handleLogin_validates_and_trims_employeeId (w : World) (s : LoginScreen.State) :
  let a := Js.trim (LoginScreen.employeeId s) in
  let b := LoginScreen.password s in
  if (a =? "")%string || (Js.trim b =? "")%string
  then
    forall auth mounted,
      LoginScreen.handleLogin auth mounted (w, s)
      = (Val tt,
         (exec (emit (Alert_alert "Error" "Please enter both Employee ID and Password")) w,
          s))
  else
    (a <> "" /\ Js.trim a = a /\ Js.trim b <> "")
    /\ (forall ctx1 ctx2 mounted,
          (forall w1, AuthContextType.login ctx1 a b w1 = AuthContextType.login ctx2 a b w1) ->
          LoginScreen.handleLogin (Some ctx1) mounted (w, s)
          = LoginScreen.handleLogin (Some ctx2) mounted (w, s))
    /\ (forall BACKEND_URL F answer w0 mounted,
          Js.truthy BACKEND_URL = true ->
          requests (events (fst (exec
            (LoginScreen.handleLogin
               (Some (AuthProvider.value BACKEND_URL F answer w0)) mounted) (w, s))))
          = requests (events w)
            ++ [{| url := (Js.render BACKEND_URL ++ "/api/auth/login")%string;
                   method := "POST";
                   headers := [("Content-Type", "application/json")];
                   body := login_body a b |}]).
Proof.
  destruct s as [typed_id typed_password shown busy].
  destruct w as [[stored_token stored_employee] e t loading log].
  cbv zeta. cbn [LoginScreen.employeeId LoginScreen.password].
  set (a := Js.trim typed_id). set (b := typed_password).
  destruct (a =? "")%string eqn:Ha; cbn [orb].
  - intros auth mounted. unfold_prog. fold a. cbn. rewrite Ha. reflexivity.
  - destruct (Js.trim b =? "")%string eqn:Hb.
    + intros auth mounted. unfold_prog. fold a b. cbn. rewrite Ha, Hb. reflexivity.
    + split; [|split].
      * split; [now apply eqb_empty_false|].
        split; [apply trim_idempotent | now apply eqb_empty_false].
      * intros [e1 t1 login1 logout1 l1] [e2 t2 login2 logout2 l2] mounted Hsame.
        cbn [AuthContextType.login] in Hsame.
        unfold_prog. fold a b. cbn. rewrite Ha, Hb. cbn.
        rewrite Hsame. reflexivity.
      * intros BACKEND_URL F answer w0 mounted HB.
        unfold_prog. fold a b. cbn. rewrite Ha, Hb, HB. cbn.
        destruct mounted;
        destruct answer as [|[status [data|]|status [errorData|]]]; cbn;
          repeat (match goal with
                  | |- context [setItem_rejects ?F ?k] => destruct (setItem_rejects F k)
                  end; cbn);
          tidy_events; reflexivity.
Qed.

Lemma handleLogin_validates_and_trims_employeeId_witness :
  LoginScreen.handleLogin Sample.login_auth true (Sample.first_start, Sample.blank_form)
  = (Val tt,
     (exec (emit (Alert_alert "Error" "Please enter both Employee ID and Password"))
           Sample.first_start,
      Sample.blank_form)).
Proof.
  exact (@handleLogin_validates_and_trims_employeeId
           Sample.first_start Sample.blank_form Sample.login_auth true).
Defined.

(** ** The token guard *)

(** C6: with no context, a null token or an empty token, each of the five
    API operations returns at once: the world (its event log included, so
    no request went out) and the screen's cells are what they were. *)
Theorem absent_token_skips_request
    (BACKEND_URL id : option string) (auth : option AuthContextType.t) :
  token_absent auth = true ->
  (forall isRefresh answer s,
     HomeScreen.fetchComplaints BACKEND_URL auth isRefresh answer s = (Val tt, s))
  /\ (forall answer s,
     ComplaintDetailScreen.fetchComplaint BACKEND_URL id auth answer s = (Val tt, s))
  /\ (forall answer s,
     ProfileScreen.fetchProfile BACKEND_URL auth answer s = (Val tt, s))
  /\ (forall newStatus answer refetch s,
     ComplaintDetailScreen.updateComplaintStatus
       BACKEND_URL id auth newStatus answer refetch s = (Val tt, s))
  /\ (forall base64Image answer refetch s,
     ComplaintDetailScreen.uploadProgressPhoto
       BACKEND_URL id auth base64Image answer refetch s = (Val tt, s)).
Proof.
  intros Habsent.
  destruct auth as [[e t login logout loading]|]; cbn in Habsent.
  - repeat split; intros; open_records; unfold_prog; rewrite Habsent; cbn;
      repeat (break_shown; cbn); reflexivity.
  - repeat split; intros; open_records; unfold_prog;
      repeat (break_shown; cbn); reflexivity.
Qed.

Lemma absent_token_skips_request_witness :
  ComplaintDetailScreen.updateComplaintStatus Sample.BACKEND_URL (Some "c-7")
    Sample.signed_out_auth "resolved" fetch_rejects fetch_rejects
    (Sample.first_start, Sample.detail)
  = (Val tt, (Sample.first_start, Sample.detail)).
Proof.
  apply (@absent_token_skips_request Sample.BACKEND_URL (Some "c-7")
           Sample.signed_out_auth).
  reflexivity.
Defined.

(** ** Session expiry *)

(** X26: The three fetches answer a 401 with the notice and then the
    context's logout. *)
Lemma fetch_401_expires_session
    (BACKEND_URL id : option string) (ctx : AuthContextType.t) (w : World) :
  Js.truthy (AuthContextType.token ctx) = true ->
  let expired (path : string) (label : string) :=
    exec (emit (fetch_call {| url := (Js.render BACKEND_URL ++ path)%string;
                              method := "GET";
                              headers := bearer_headers (AuthContextType.token ctx);
                              body := no_body |}) ;;
          emit (console_error label) ;;
          emit (Alert_alert "Session Expired" "Please login again") ;;
          unawaited (AuthContextType.logout ctx)) w in
  (forall isRefresh json s,
     fst (exec (HomeScreen.fetchComplaints BACKEND_URL (Some ctx) isRefresh
                  (fetch_resolves (NotOk 401 json))) (w, s))
     = expired "/api/complaints" "Failed to fetch complaints:")
  /\ (forall json s,
     Js.truthy id = true ->
     fst (exec (ComplaintDetailScreen.fetchComplaint BACKEND_URL id (Some ctx)
                  (fetch_resolves (NotOk 401 json))) (w, s))
     = expired ("/api/complaints/" ++ Js.render id)%string "Failed to fetch complaint:")
  /\ (forall json s,
     fst (exec (ProfileScreen.fetchProfile BACKEND_URL (Some ctx)
                  (fetch_resolves (NotOk 401 json))) (w, s))
     = expired "/api/profile" "Failed to fetch profile:").
Proof.
  intros Htoken expired. subst expired.
  repeat split; intros; try destruct isRefresh; open_records;
    unfold_prog; rewrite Htoken; cbn; rewrite ?H; cbn;
    match goal with
    | |- context [match ?call with pair _ _ => _ end] => destruct call
    end; reflexivity.
Qed.

(** C1 fails on the two writes.  In a signed-in session showing a
    complaint, a 401 to the detail fetch shows the notice, clears the
    session and navigates to ["/"]; the same 401 to the status update or to
    the photo upload shows a generic error, and the session stays. *)
Lemma unauthorized_write_keeps_session :
  let unauthorized {A : Type} : FetchResult A ErrorData.t :=
    fetch_resolves (NotOk 401 None) in
  let start := (Sample.signed_in, Sample.detail) in
  let after_fetch :=
    fst (exec (ComplaintDetailScreen.fetchComplaint Sample.BACKEND_URL (Some "c-7")
                 Sample.auth unauthorized) start) in
  let after_update :=
    fst (exec (ComplaintDetailScreen.updateComplaintStatus Sample.BACKEND_URL (Some "c-7")
                 Sample.auth "resolved" unauthorized fetch_rejects) start) in
  let after_upload :=
    fst (exec (ComplaintDetailScreen.uploadProgressPhoto Sample.BACKEND_URL (Some "c-7")
                 Sample.auth "aGVsbG8=" unauthorized fetch_rejects) start) in
  (token after_fetch = None
   /\ employee after_fetch = None
   /\ storage after_fetch = empty_storage
   /\ alerts (events after_fetch) = [("Session Expired", "Please login again")]
   /\ navigations (events after_fetch) = [router_replace "/"])
  /\ (token after_update = Some "tok1"
      /\ employee after_update = Some Sample.asha
      /\ storage after_update = storage Sample.signed_in
      /\ alerts (events after_update) = [("Error", "Failed to update complaint status")]
      /\ navigations (events after_update) = [])
  /\ (token after_upload = Some "tok1"
      /\ employee after_upload = Some Sample.asha
      /\ storage after_upload = storage Sample.signed_in
      /\ alerts (events after_upload) = [("Error", "Failed to upload progress photo")]
      /\ navigations (events after_upload) = []).
Proof. vm_compute. repeat split; reflexivity. Qed.

(** ** Writes on the detail screen *)

(** C7: with a token and a complaint on screen, [updateComplaintStatus]
    sends a PUT whose body is the new status with the context employee's
    [employee_id] and [name]; on a 2xx it shows the success alert and then
    does exactly what [fetchComplaint] does with the answer to its GET, so
    the body of the PUT's response is never read; when the GET succeeds the
    complaint on screen is the one the GET returned. *)
Theorem updateComplaintStatus_sends_assignment_then_refetches
    (BACKEND_URL id : option string) (ctx : AuthContextType.t)
    (newStatus : string) (c : ComplaintDetail.t)
    (w : World) (s : ComplaintDetailScreen.State) :
  Js.truthy (AuthContextType.token ctx) = true ->
  ComplaintDetailScreen.complaint s = Some c ->
  let auth := Some ctx in
  let sent :=
    {| url := (Js.render BACKEND_URL ++ "/api/complaints/" ++ ComplaintDetail.id c)%string;
       method := "PUT";
       headers := bearer_headers (AuthContextType.token ctx);
       body := status_body newStatus
                 (option_map Employee.employee_id (AuthContextType.employee ctx))
                 (option_map Employee.name (AuthContextType.employee ctx)) |} in
  (forall status updated refetch,
     exec (ComplaintDetailScreen.updateComplaintStatus BACKEND_URL id auth newStatus
             (fetch_resolves (Ok2xx status updated)) refetch) (w, s)
     = exec (ComplaintDetailScreen.setUpdating true ;;
             lift (emit (fetch_call sent)) ;;
             lift (emit (Alert_alert "Success"
                           ("Complaint status updated to " ++ newStatus)%string)) ;;
             ComplaintDetailScreen.fetchComplaint BACKEND_URL id auth refetch ;;
             ComplaintDetailScreen.setUpdating false) (w, s))
  /\ (forall status updated status' current,
        Js.truthy id = true ->
        let after :=
          exec (ComplaintDetailScreen.updateComplaintStatus BACKEND_URL id auth newStatus
                  (fetch_resolves (Ok2xx status updated))
                  (fetch_resolves (Ok2xx status' (Some current)))) (w, s) in
        ComplaintDetailScreen.complaint (snd after) = Some current
        /\ requests (events (fst after))
           = requests (events w)
             ++ [sent;
                 {| url := (Js.render BACKEND_URL ++ "/api/complaints/" ++ Js.render id)%string;
                    method := "GET";
                    headers := bearer_headers (AuthContextType.token ctx);
                    body := no_body |}]).
Proof.
  intros Htoken Hc auth sent. subst auth sent.
  open_records. subst. split.
  - intros status updated refetch.
    unfold_prog. rewrite Htoken. cbn.
    destruct (Js.truthy id); cbn; [|reflexivity].
    destruct refetch as [|[status' [current|]|status' json]]; cbn;
      try reflexivity.
    destruct (status' =? 401)%Z; cbn.
    + match goal with
      | |- context [match ?call with pair _ _ => _ end] => destruct call
      end; reflexivity.
    + destruct (status' =? 404)%Z; reflexivity.
  - intros status updated status' current Hid.
    unfold_prog. rewrite Htoken, Hid. cbn.
    tidy_events. rewrite <- app_assoc. split; reflexivity.
Qed.

Lemma updateComplaintStatus_sends_assignment_then_refetches_witness :
  let after :=
    exec (ComplaintDetailScreen.updateComplaintStatus Sample.BACKEND_URL (Some "c-7")
            Sample.auth "resolved"
            (fetch_resolves (Ok2xx 200 (Some (Sample.pothole "stale"))))
            (fetch_resolves (Ok2xx 200 (Some (Sample.pothole "resolved")))))
         (Sample.signed_in, Sample.detail) in
  ComplaintDetailScreen.complaint (snd after) = Some (Sample.pothole "resolved")
  /\ requests (events (fst after))
     = requests (events Sample.signed_in)
       ++ [{| url := "https://api.example.org/api/complaints/c-7";
              method := "PUT";
              headers := bearer_headers (Some "tok1");
              body := status_body "resolved" (Some "test123") (Some "Asha Rao") |};
           {| url := "https://api.example.org/api/complaints/c-7";
              method := "GET";
              headers := bearer_headers (Some "tok1");
              body := no_body |}].
Proof.
  apply (proj2 (@updateComplaintStatus_sends_assignment_then_refetches
                  Sample.BACKEND_URL (Some "c-7") Sample.ctx "resolved"
                  (Sample.pothole "pending") Sample.signed_in Sample.detail
                  eq_refl eq_refl)
           200%Z (Some (Sample.pothole "stale")) 200%Z (Sample.pothole "resolved")).
  reflexivity.
Defined.

(** C8: with a token and a complaint on screen, a status update or a
    photo upload that got no response or a status outside 2xx leaves the
    complaint on screen as it was, shows one error alert, and sent the one
    write request and nothing after it: no re-fetch, no local update. *)
Theorem failed_write_keeps_snapshot
    (BACKEND_URL id : option string) (ctx : AuthContextType.t)
    (newStatus base64Image : string) (c : ComplaintDetail.t)
    (put : FetchResult ComplaintDetail.t ErrorData.t)
    (post : FetchResult unit ErrorData.t)
    (refetch : FetchResult ComplaintDetail.t ErrorData.t)
    (w : World) (s : ComplaintDetailScreen.State) :
  Js.truthy (AuthContextType.token ctx) = true ->
  ComplaintDetailScreen.complaint s = Some c ->
  failed put = true ->
  failed post = true ->
  let after_update :=
    exec (ComplaintDetailScreen.updateComplaintStatus
            BACKEND_URL id (Some ctx) newStatus put refetch) (w, s) in
  let after_upload :=
    exec (ComplaintDetailScreen.uploadProgressPhoto
            BACKEND_URL id (Some ctx) base64Image post refetch) (w, s) in
  (ComplaintDetailScreen.complaint (snd after_update) = Some c
   /\ alerts (events (fst after_update))
      = alerts (events w)
        ++ [("Error",
             match put with
             | fetch_rejects => "Failed to update complaint"
             | fetch_resolves _ => "Failed to update complaint status"
             end)]
   /\ length (requests (events (fst after_update))) = S (length (requests (events w))))
  /\ (ComplaintDetailScreen.complaint (snd after_upload) = Some c
      /\ alerts (events (fst after_upload))
         = alerts (events w)
           ++ [("Error",
                match post with
                | fetch_rejects => "Failed to upload photo"
                | fetch_resolves _ => "Failed to upload progress photo"
                end)]
      /\ length (requests (events (fst after_upload))) = S (length (requests (events w)))).
Proof.
  intros Htoken Hc Hput Hpost. open_records. subst.
  split.
  - destruct put as [|[status json|status json]]; try discriminate;
      unfold_prog; rewrite Htoken; cbn; tidy_events;
      rewrite length_app; cbn;
      (split; [reflexivity | split; [reflexivity | lia]]).
  - destruct post as [|[status json|status json]]; try discriminate;
      unfold_prog; rewrite Htoken; cbn; tidy_events;
      rewrite length_app; cbn;
      (split; [reflexivity | split; [reflexivity | lia]]).
Qed.

Lemma failed_write_keeps_snapshot_witness :
  let after_update :=
    exec (ComplaintDetailScreen.updateComplaintStatus
            Sample.BACKEND_URL (Some "c-7") (Some Sample.ctx) "resolved"
            (fetch_resolves (NotOk 500 None)) fetch_rejects)
         (Sample.signed_in, Sample.detail) in
  let after_upload :=
    exec (ComplaintDetailScreen.uploadProgressPhoto
            Sample.BACKEND_URL (Some "c-7") (Some Sample.ctx) "aGVsbG8="
            fetch_rejects fetch_rejects)
         (Sample.signed_in, Sample.detail) in
  (ComplaintDetailScreen.complaint (snd after_update) = Some (Sample.pothole "pending")
   /\ alerts (events (fst after_update))
      = alerts (events Sample.signed_in)
        ++ [("Error", "Failed to update complaint status")]
   /\ length (requests (events (fst after_update)))
      = S (length (requests (events Sample.signed_in))))
  /\ (ComplaintDetailScreen.complaint (snd after_upload) = Some (Sample.pothole "pending")
      /\ alerts (events (fst after_upload))
         = alerts (events Sample.signed_in) ++ [("Error", "Failed to upload photo")]
      /\ length (requests (events (fst after_upload)))
         = S (length (requests (events Sample.signed_in)))).
Proof.
  apply (@failed_write_keeps_snapshot Sample.BACKEND_URL (Some "c-7") Sample.ctx
           "resolved" "aGVsbG8=" (Sample.pothole "pending")
           (fetch_resolves (NotOk 500 None)) fetch_rejects fetch_rejects
           Sample.signed_in Sample.detail);
    reflexivity.
Defined.

(** * Further properties of the code *)

(** Unfolds the functions of this part, then the programs as before. *)
Ltac unfold_more :=
  cbv [AppContent.effect HomeScreen.onRefresh
       ComplaintDetailScreen.with_picked ComplaintDetailScreen.takePicture
       ComplaintDetailScreen.pickFromGallery ComplaintDetailScreen.addProgressPhoto
       ComplaintDetailScreen.openImageModal ComplaintDetailScreen.setSelectedImage
       ComplaintDetailScreen.setShowImageModal
       ComplaintDetailScreen.canceled ComplaintDetailScreen.assets
       ComplaintDetailScreen.base64
       ProfileScreen.handleLogout restart];
  unfold_prog.

(** ** The provider *)

(** X1: [login] never rejects, whatever network and store do.  With a backend
    URL it ends with [isLoading] false; without one it sends nothing: it
    shows the configuration alert, returns false and touches nothing else. *)
Theorem login_always_resolves
    (BACKEND_URL : option string) (F : Faults)
    (answer : FetchResult LoginData.t ErrorData.t)
    (employeeId password : string) (w : World) :
  let attempt := AuthProvider.login BACKEND_URL F answer employeeId password in
  (exists ok, result attempt w = Val ok)
  /\ if Js.truthy BACKEND_URL
     then isLoading (exec attempt w) = false
     else attempt w
          = (Val false,
             exec (emit (Alert_alert "Error" "Backend URL is not configured.")) w).
Proof.
  open_records. unfold_prog.
  destruct (Js.truthy BACKEND_URL); cbn; [|split; [eauto | reflexivity]].
  destruct answer as [|[status [data|]|status [errorData|]]]; cbn;
    repeat (match goal with
            | |- context [setItem_rejects ?F ?k] => destruct (setItem_rejects F k)
            end; cbn);
    split; eauto.
Qed.

(** X2: A login that gets no readable body (the request got no
    response, or the response's body is not JSON, whatever its status)
    returns failure, leaves store and in-memory session as they were, shows
    the connectivity alert, does not navigate, and has sent the one login
    request carrying the employee id and the password. *)
Lemma login_without_body_fails
    (BACKEND_URL : option string) (F : Faults)
    (answer : FetchResult LoginData.t ErrorData.t)
    (employeeId password : string) (w : World) :
  Js.truthy BACKEND_URL = true ->
  match answer with
  | fetch_rejects => True
  | fetch_resolves (Ok2xx _ None) => True
  | fetch_resolves (NotOk _ None) => True
  | _ => False
  end ->
  let attempt := AuthProvider.login BACKEND_URL F answer employeeId password in
  let w' := exec attempt w in
  result attempt w = Val false
  /\ same_session w w'
  /\ alerts (events w') = alerts (events w) ++ [("Error", "Failed to connect to server")]
  /\ navigations (events w') = navigations (events w)
  /\ requests (events w')
     = requests (events w)
       ++ [{| url := (Js.render BACKEND_URL ++ "/api/auth/login")%string;
              method := "POST";
              headers := [("Content-Type", "application/json")];
              body := login_body employeeId password |}].
Proof.
  intros HB Hanswer. open_records. unfold same_session. unfold_prog. rewrite HB. cbn.
  destruct answer as [|[status [data|]|status [errorData|]]];
    try contradiction; cbn; tidy_events; repeat split; reflexivity.
Qed.

Lemma login_without_body_fails_witness :
  let attempt :=
    AuthProvider.login Sample.BACKEND_URL no_faults fetch_rejects "test123" "test123" in
  let w' := exec attempt Sample.first_start in
  result attempt Sample.first_start = Val false
  /\ same_session Sample.first_start w'
  /\ alerts (events w')
     = alerts (events Sample.first_start) ++ [("Error", "Failed to connect to server")]
  /\ navigations (events w') = navigations (events Sample.first_start)
  /\ requests (events w')
     = requests (events Sample.first_start)
       ++ [{| url := (Js.render Sample.BACKEND_URL ++ "/api/auth/login")%string;
              method := "POST";
              headers := [("Content-Type", "application/json")];
              body := login_body "test123" "test123" |}].
Proof.
  apply (@login_without_body_fails Sample.BACKEND_URL no_faults fetch_rejects
           "test123" "test123" Sample.first_start).
  - reflexivity.
  - exact I.
Defined.

(** X3: A 2xx login whose store write rejects is reported as a failure (false,
    the connectivity alert, no navigation by [login]), yet the returned
    token and employee are already in memory; the store is as it was when
    the first write rejected, and has only its token entry replaced when
    it was the second. *)
Theorem login_store_failure_keeps_memory_session
    (BACKEND_URL : option string) (F : Faults) (status : Z) (data : LoginData.t)
    (employeeId password : string) (w : World) :
  Js.truthy BACKEND_URL = true ->
  setItem_rejects F "auth_token" || setItem_rejects F "employee_data" = true ->
  let attempt := AuthProvider.login BACKEND_URL F
                   (fetch_resolves (Ok2xx status (Some data))) employeeId password in
  let w' := exec attempt w in
  result attempt w = Val false
  /\ token w' = Some (LoginData.access_token data)
  /\ employee w' = Some (LoginData.employee data)
  /\ storage w'
     = (if setItem_rejects F "auth_token" then storage w
        else with_auth_token (Some (LoginData.access_token data)) (storage w))
  /\ alerts (events w') = alerts (events w) ++ [("Error", "Failed to connect to server")]
  /\ navigations (events w') = navigations (events w).
Proof.
  intros HB HF. open_records. unfold_prog. rewrite HB. cbn.
  destruct (setItem_rejects F "auth_token"); cbn.
  - tidy_events. repeat split; reflexivity.
  - cbn in HF. rewrite HF. cbn. tidy_events. repeat split; reflexivity.
Qed.

Lemma login_store_failure_keeps_memory_session_witness :
  let F := {| getItem_rejects := fun _ => false;
              setItem_rejects := fun key => (key =? "employee_data")%string;
              removeItem_rejects := fun _ => false |} in
  let attempt := AuthProvider.login Sample.BACKEND_URL F
                   (fetch_resolves (Ok2xx 200 (Some Sample.granted)))
                   "test123" "test123" in
  let w' := exec attempt Sample.first_start in
  result attempt Sample.first_start = Val false
  /\ token w' = Some (LoginData.access_token Sample.granted)
  /\ employee w' = Some (LoginData.employee Sample.granted)
  /\ storage w'
     = (if setItem_rejects F "auth_token" then storage Sample.first_start
        else with_auth_token (Some (LoginData.access_token Sample.granted))
               (storage Sample.first_start))
  /\ alerts (events w')
     = alerts (events Sample.first_start) ++ [("Error", "Failed to connect to server")]
  /\ navigations (events w') = navigations (events Sample.first_start).
Proof.
  intros F.
  apply (@login_store_failure_keeps_memory_session Sample.BACKEND_URL F 200
           Sample.granted "test123" "test123" Sample.first_start);
    reflexivity.
Defined.

(** X4: [checkAuthStatus] never rejects and always ends with [isLoading]
    false; it never writes the store and never shows an alert, navigates or
    sends a request. *)
Theorem checkAuthStatus_only_reads (F : Faults) (w : World) :
  let w' := exec (AuthProvider.checkAuthStatus F) w in
  result (AuthProvider.checkAuthStatus F) w = Val tt
  /\ isLoading w' = false
  /\ storage w' = storage w
  /\ alerts (events w') = alerts (events w)
  /\ navigations (events w') = navigations (events w)
  /\ requests (events w') = requests (events w).
Proof.
  open_records. unfold_prog.
  repeat (split_env; cbn); tidy_events; repeat split; reflexivity.
Qed.

(** X5: When a [getItem] rejects, the restore leaves the in-memory session as
    it was and only logs. *)
Theorem checkAuthStatus_store_failure (F : Faults) (w : World) :
  getItem_rejects F "auth_token" || getItem_rejects F "employee_data" = true ->
  let w' := exec (AuthProvider.checkAuthStatus F) w in
  token w' = token w
  /\ employee w' = employee w
  /\ events w' = events w ++ [console_error "Error checking auth status:"].
Proof.
  intros HF. open_records. unfold_prog.
  destruct (getItem_rejects F "auth_token"); cbn; [auto|].
  cbn in HF. rewrite HF. cbn. auto.
Qed.

Lemma checkAuthStatus_store_failure_witness :
  let F := {| getItem_rejects := fun key => (key =? "employee_data")%string;
              setItem_rejects := fun _ => false;
              removeItem_rejects := fun _ => false |} in
  let w' := exec (AuthProvider.checkAuthStatus F) Sample.signed_in in
  token w' = token Sample.signed_in
  /\ employee w' = employee Sample.signed_in
  /\ events w'
     = events Sample.signed_in ++ [console_error "Error checking auth status:"].
Proof.
  intros F.
  apply (@checkAuthStatus_store_failure F Sample.signed_in). reflexivity.
Defined.




(** X7: After a logout whose removals went through, a restore finds nothing:
    the session stays signed out and the store empty, whatever the reads
    do. *)
Theorem logout_then_restore_stays_signed_out (F F' : Faults) (w : World) :
  removeItem_rejects F "auth_token" = false ->
  removeItem_rejects F "employee_data" = false ->
  let w' := exec (AuthProvider.logout F ;; AuthProvider.checkAuthStatus F') w in
  token w' = None /\ employee w' = None /\ storage w' = empty_storage.
Proof.
  intros H1 H2. open_records. unfold_prog. rewrite H1, H2. cbn.
  repeat (split_env; cbn); repeat split; reflexivity.
Qed.

Lemma logout_then_restore_stays_signed_out_witness :
  let w' :=
    exec (AuthProvider.logout no_faults ;; AuthProvider.checkAuthStatus no_faults)
         Sample.signed_in in
  token w' = None /\ employee w' = None /\ storage w' = empty_storage.
Proof.
  apply (@logout_then_restore_stays_signed_out no_faults no_faults Sample.signed_in);
    reflexivity.
Defined.

(** X8: Restoring twice is restoring once, as far as the session goes: the
    second run, with the same store behaviour, changes neither the store
    nor the in-memory token and employee. *)
Theorem checkAuthStatus_idempotent (F : Faults) (w : World) :
  same_session
    (exec (AuthProvider.checkAuthStatus F) w)
    (exec (AuthProvider.checkAuthStatus F ;; AuthProvider.checkAuthStatus F) w).
Proof.
  destruct w as [[[[|c tok]|] [[e| |[|c' text]]|]] e0 t0 loading log];
    unfold same_session; unfold_prog;
    destruct (getItem_rejects F "auth_token"); cbn; auto;
    destruct (getItem_rejects F "employee_data"); cbn; auto.
Qed.

(** ** The login form *)

(** X9: The form's clean-up after a login that never left it mounted.
    Without a backend URL the provider's [login] returns at its first check,
    before it touches [isLoading], so the form stays on screen: with both
    fields filled in, [handleLogin] shows the configuration alert and
    nothing else happens to the world (no request), and the form ends idle
    with the employee id as typed and the password emptied.  The same
    clean-up runs when there is no context at all, with no alert. *)
Theorem handleLogin_without_backend_resets_password
    (BACKEND_URL : option string) (F : Faults)
    (answer : FetchResult LoginData.t ErrorData.t)
    (w0 w : World) (s : LoginScreen.State) :
  Js.truthy BACKEND_URL = false ->
  Js.trim (LoginScreen.employeeId s) <> "" ->
  Js.trim (LoginScreen.password s) <> "" ->
  let idle :=
    {| LoginScreen.employeeId := LoginScreen.employeeId s;
       LoginScreen.password := "";
       LoginScreen.showPassword := LoginScreen.showPassword s;
       LoginScreen.isLoading := false |} in
  LoginScreen.handleLogin (Some (AuthProvider.value BACKEND_URL F answer w0)) true (w, s)
  = (Val tt,
     (exec (emit (Alert_alert "Error" "Backend URL is not configured.")) w, idle))
  /\ LoginScreen.handleLogin None true (w, s) = (Val tt, (w, idle)).
Proof.
  intros HB Ha Hb.
  destruct s as [typed_id typed_password shown busy].
  cbn [LoginScreen.employeeId LoginScreen.password LoginScreen.showPassword] in *.
  apply String.eqb_neq in Ha, Hb.
  open_records. cbv zeta.
  split; unfold_prog; cbn; rewrite Ha, Hb; cbn; rewrite ?HB; reflexivity.
Qed.

Lemma handleLogin_without_backend_resets_password_witness :
  let idle :=
    {| LoginScreen.employeeId := " test123 ";
       LoginScreen.password := "";
       LoginScreen.showPassword := false;
       LoginScreen.isLoading := false |} in
  LoginScreen.handleLogin
    (Some (AuthProvider.value None no_faults Sample.granting Sample.at_login)) true
    (Sample.at_login, Sample.padded_form)
  = (Val tt,
     (exec (emit (Alert_alert "Error" "Backend URL is not configured."))
           Sample.at_login, idle))
  /\ LoginScreen.handleLogin None true (Sample.at_login, Sample.padded_form)
     = (Val tt, (Sample.at_login, idle)).
Proof.
  apply (@handleLogin_without_backend_resets_password
           None no_faults Sample.granting Sample.at_login Sample.at_login
           Sample.padded_form).
  - reflexivity.
  - vm_compute. discriminate.
  - vm_compute. discriminate.
Defined.

(** ** The entry route *)

(** X10: Once the restore has run, the entry route no longer shows its
    spinner, and its effect navigates to the authenticated area exactly when
    the restore left an employee in memory. *)
Theorem after_restore_entry_route
    (BACKEND_URL : option string) (F F' : Faults)
    (answer : FetchResult LoginData.t ErrorData.t) (w : World) :
  let w' := exec (AuthProvider.checkAuthStatus F) w in
  let auth := Some (AuthProvider.value BACKEND_URL F' answer w') in
  AppContent.view auth = AppContent.LoginScreenView
  /\ navigations (events (exec (AppContent.effect auth) w'))
     = navigations (events w')
       ++ (if Js.present (employee w') then [router_replace "/(tabs)/home"] else []).
Proof.
  destruct w as [[[[|c tok]|] [[e| |[|c' text]]|]] [e0|] t0 loading log];
    unfold AppContent.view; unfold_more;
    destruct (getItem_rejects F "auth_token"); cbn;
    try destruct (getItem_rejects F "employee_data"); cbn;
    tidy_events; split; reflexivity.
Qed.

(** X11: A 2xx login that [login] reports as failed because a store write
    rejected still sends the user to the authenticated area: the employee is
    in memory and [isLoading] is false, so the entry route's effect
    navigates. *)
Theorem login_store_failure_still_navigates
    (BACKEND_URL : option string) (F F' : Faults) (status : Z) (data : LoginData.t)
    (again : FetchResult LoginData.t ErrorData.t)
    (employeeId password : string) (w : World) :
  Js.truthy BACKEND_URL = true ->
  setItem_rejects F "auth_token" || setItem_rejects F "employee_data" = true ->
  let attempt := AuthProvider.login BACKEND_URL F
                   (fetch_resolves (Ok2xx status (Some data))) employeeId password in
  let w' := exec attempt w in
  let auth := Some (AuthProvider.value BACKEND_URL F' again w') in
  result attempt w = Val false
  /\ navigations (events (exec (AppContent.effect auth) w'))
     = navigations (events w) ++ [router_replace "/(tabs)/home"].
Proof.
  intros HB HF. open_records. unfold_more. rewrite HB. cbn.
  destruct (setItem_rejects F "auth_token"); cbn.
  - tidy_events. split; reflexivity.
  - cbn in HF. rewrite HF. cbn. tidy_events. split; reflexivity.
Qed.

Lemma login_store_failure_still_navigates_witness :
  let F := {| getItem_rejects := fun _ => false;
              setItem_rejects := fun key => (key =? "auth_token")%string;
              removeItem_rejects := fun _ => false |} in
  let attempt := AuthProvider.login Sample.BACKEND_URL F
                   (fetch_resolves (Ok2xx 200 (Some Sample.granted)))
                   "test123" "test123" in
  let w' := exec attempt Sample.first_start in
  let auth := Some (AuthProvider.value Sample.BACKEND_URL no_faults Sample.granting w') in
  result attempt Sample.first_start = Val false
  /\ navigations (events (exec (AppContent.effect auth) w'))
     = navigations (events Sample.first_start) ++ [router_replace "/(tabs)/home"].
Proof.
  intros F.
  apply (@login_store_failure_still_navigates Sample.BACKEND_URL F no_faults 200
           Sample.granted Sample.granting "test123" "test123" Sample.first_start);
    reflexivity.
Defined.

(** ** Reads *)

(** X12: The list fetch, for any answer but a 401.  The list becomes the
    returned one on a 2xx with a body (an empty list included, which renders
    as the "No Complaints" state) and is kept otherwise; the spinner is off
    afterwards; the session is untouched and nothing navigates; an alert is
    shown only when no response arrived or the body was not JSON: a status
    outside 2xx other than 401 is logged and otherwise silent. *)
Theorem fetchComplaints_outcome
    (BACKEND_URL : option string) (ctx : AuthContextType.t) (isRefresh : bool)
    (answer : FetchResult (list Complaint.t) ErrorData.t)
    (w : World) (s : HomeScreen.State) :
  Js.truthy (AuthContextType.token ctx) = true ->
  unauthorized answer = false ->
  let after :=
    exec (HomeScreen.fetchComplaints BACKEND_URL (Some ctx) isRefresh answer) (w, s) in
  HomeScreen.complaints (snd after)
  = match answer with
    | fetch_resolves (Ok2xx _ (Some data)) => data
    | _ => HomeScreen.complaints s
    end
  /\ HomeScreen.loading (snd after) = false
  /\ HomeScreen.refreshing (snd after)
     = (if isRefresh then false else HomeScreen.refreshing s)
  /\ HomeScreen.view (snd after)
     = match HomeScreen.complaints (snd after) with
       | [] => HomeScreen.EmptyState
       | _ :: _ => HomeScreen.ComplaintCards (HomeScreen.complaints (snd after))
       end
  /\ same_session w (fst after)
  /\ navigations (events (fst after)) = navigations (events w)
  /\ alerts (events (fst after))
     = alerts (events w)
       ++ match answer with
          | fetch_rejects => [("Error", "Failed to load complaints")]
          | fetch_resolves (Ok2xx _ None) => [("Error", "Failed to load complaints")]
          | _ => []
          end.
Proof.
  intros Htoken H401. open_records. unfold same_session, HomeScreen.view.
  destruct isRefresh, answer as [|[status [data|]|status json]];
    cbn in H401; unfold_prog; rewrite Htoken; cbn; rewrite ?H401; cbn;
    tidy_events; repeat split; reflexivity.
Qed.

Lemma fetchComplaints_outcome_witness :
  let after :=
    exec (HomeScreen.fetchComplaints Sample.BACKEND_URL (Some Sample.ctx) false
            (fetch_resolves (Ok2xx 200 (Some [])))) (Sample.signed_in, Sample.home) in
  HomeScreen.complaints (snd after) = []
  /\ HomeScreen.loading (snd after) = false
  /\ HomeScreen.refreshing (snd after) = HomeScreen.refreshing Sample.home
  /\ HomeScreen.view (snd after)
     = match HomeScreen.complaints (snd after) with
       | [] => HomeScreen.EmptyState
       | _ :: _ => HomeScreen.ComplaintCards (HomeScreen.complaints (snd after))
       end
  /\ same_session Sample.signed_in (fst after)
  /\ navigations (events (fst after)) = navigations (events Sample.signed_in)
  /\ alerts (events (fst after)) = alerts (events Sample.signed_in) ++ [].
Proof.
  apply (@fetchComplaints_outcome Sample.BACKEND_URL Sample.ctx false
           (fetch_resolves (Ok2xx 200 (Some []))) Sample.signed_in Sample.home);
    reflexivity.
Defined.

(** X13: The detail fetch, for any answer but a 401.  The complaint on screen
    becomes the returned one on a 2xx with a body and is kept otherwise; the
    spinner is off afterwards; the session is untouched; a 404 shows "Not
    Found" and navigates back; no response or a body that is not JSON shows
    the load error; any other status is logged and otherwise silent.  With
    nothing on screen before, every failure renders as "Complaint not
    found". *)
Theorem fetchComplaint_outcome
    (BACKEND_URL id : option string) (ctx : AuthContextType.t)
    (answer : FetchResult ComplaintDetail.t ErrorData.t)
    (w : World) (s : ComplaintDetailScreen.State) :
  Js.truthy (AuthContextType.token ctx) = true ->
  Js.truthy id = true ->
  unauthorized answer = false ->
  let after :=
    exec (ComplaintDetailScreen.fetchComplaint BACKEND_URL id (Some ctx) answer) (w, s) in
  ComplaintDetailScreen.complaint (snd after)
  = match answer with
    | fetch_resolves (Ok2xx _ (Some data)) => Some data
    | _ => ComplaintDetailScreen.complaint s
    end
  /\ ComplaintDetailScreen.loading (snd after) = false
  /\ ComplaintDetailScreen.view (snd after)
     = match ComplaintDetailScreen.complaint (snd after) with
       | Some c => ComplaintDetailScreen.DetailView c
       | None => ComplaintDetailScreen.NotFoundView
       end
  /\ same_session w (fst after)
  /\ alerts (events (fst after))
     = alerts (events w)
       ++ match answer with
          | fetch_rejects => [("Error", "Failed to load complaint details")]
          | fetch_resolves (Ok2xx _ None) => [("Error", "Failed to load complaint details")]
          | fetch_resolves (Ok2xx _ (Some _)) => []
          | fetch_resolves (NotOk status _) =>
              if (status =? 404)%Z then [("Not Found", "Complaint not found")] else []
          end
  /\ navigations (events (fst after))
     = navigations (events w)
       ++ match answer with
          | fetch_resolves (NotOk status _) =>
              if (status =? 404)%Z then [router_back] else []
          | _ => []
          end.
Proof.
  intros Htoken Hid H401. open_records.
  unfold same_session, ComplaintDetailScreen.view.
  destruct answer as [|[status [data|]|status json]];
    cbn in H401; unfold_prog; rewrite Htoken, Hid; cbn; rewrite ?H401; cbn;
    try destruct (status =? 404)%Z; cbn;
    tidy_events; repeat split; reflexivity.
Qed.

Lemma fetchComplaint_outcome_witness :
  let answer : FetchResult ComplaintDetail.t ErrorData.t :=
    fetch_resolves (NotOk 404 None) in
  let after :=
    exec (ComplaintDetailScreen.fetchComplaint Sample.BACKEND_URL (Some "c-7")
            (Some Sample.ctx) answer) (Sample.signed_in, Sample.detail) in
  ComplaintDetailScreen.complaint (snd after)
  = ComplaintDetailScreen.complaint Sample.detail
  /\ ComplaintDetailScreen.loading (snd after) = false
  /\ ComplaintDetailScreen.view (snd after)
     = match ComplaintDetailScreen.complaint (snd after) with
       | Some c => ComplaintDetailScreen.DetailView c
       | None => ComplaintDetailScreen.NotFoundView
       end
  /\ same_session Sample.signed_in (fst after)
  /\ alerts (events (fst after))
     = alerts (events Sample.signed_in) ++ [("Not Found", "Complaint not found")]
  /\ navigations (events (fst after))
     = navigations (events Sample.signed_in) ++ [router_back].
Proof.
  intros answer.
  apply (@fetchComplaint_outcome Sample.BACKEND_URL (Some "c-7") Sample.ctx answer
           Sample.signed_in Sample.detail);
    reflexivity.
Defined.

(** X14: The profile fetch, for any answer but a 401.  The profile becomes
    the returned one on a 2xx with a body and is kept otherwise; the spinner
    is off afterwards; the session is untouched and nothing navigates; an
    alert is shown only when no response arrived or the body was not JSON.
    With no profile before, every failure renders as "Failed to load
    profile". *)
Theorem fetchProfile_outcome
    (BACKEND_URL : option string) (ctx : AuthContextType.t)
    (answer : FetchResult ProfileData ErrorData.t)
    (w : World) (s : ProfileScreen.State) :
  Js.truthy (AuthContextType.token ctx) = true ->
  unauthorized answer = false ->
  let after :=
    exec (ProfileScreen.fetchProfile BACKEND_URL (Some ctx) answer) (w, s) in
  ProfileScreen.profileData (snd after)
  = match answer with
    | fetch_resolves (Ok2xx _ (Some data)) => Some data
    | _ => ProfileScreen.profileData s
    end
  /\ ProfileScreen.loading (snd after) = false
  /\ ProfileScreen.view (snd after)
     = match ProfileScreen.profileData (snd after) with
       | Some p => ProfileScreen.ProfileView p
       | None => ProfileScreen.FailedView
       end
  /\ same_session w (fst after)
  /\ navigations (events (fst after)) = navigations (events w)
  /\ alerts (events (fst after))
     = alerts (events w)
       ++ match answer with
          | fetch_rejects => [("Error", "Failed to load profile data")]
          | fetch_resolves (Ok2xx _ None) => [("Error", "Failed to load profile data")]
          | _ => []
          end.
Proof.
  intros Htoken H401. open_records. unfold same_session, ProfileScreen.view.
  destruct answer as [|[status [data|]|status json]];
    cbn in H401; unfold_prog; rewrite Htoken; cbn; rewrite ?H401; cbn;
    tidy_events; repeat split; reflexivity.
Qed.

Lemma fetchProfile_outcome_witness :
  let answer : FetchResult ProfileData ErrorData.t := fetch_resolves (NotOk 500 None) in
  let blank := {| ProfileScreen.profileData := None; ProfileScreen.loading := true |} in
  let after :=
    exec (ProfileScreen.fetchProfile Sample.BACKEND_URL (Some Sample.ctx) answer)
         (Sample.signed_in, blank) in
  ProfileScreen.profileData (snd after) = ProfileScreen.profileData blank
  /\ ProfileScreen.loading (snd after) = false
  /\ ProfileScreen.view (snd after)
     = match ProfileScreen.profileData (snd after) with
       | Some p => ProfileScreen.ProfileView p
       | None => ProfileScreen.FailedView
       end
  /\ same_session Sample.signed_in (fst after)
  /\ navigations (events (fst after)) = navigations (events Sample.signed_in)
  /\ alerts (events (fst after)) = alerts (events Sample.signed_in) ++ [].
Proof.
  intros answer blank.
  apply (@fetchProfile_outcome Sample.BACKEND_URL Sample.ctx answer
           Sample.signed_in blank);
    reflexivity.
Defined.

(** X15: Pull-to-refresh: with a token the refresh indicator and the spinner
    are both off once the fetch has settled, whatever the answer; without a
    token the fetch returns at once and the refresh indicator stays on. *)
Theorem onRefresh_indicator
    (BACKEND_URL : option string) (auth : option AuthContextType.t)
    (answer : FetchResult (list Complaint.t) ErrorData.t)
    (w : World) (s : HomeScreen.State) :
  let after := exec (HomeScreen.onRefresh BACKEND_URL auth answer) (w, s) in
  HomeScreen.refreshing (snd after) = token_absent auth
  /\ HomeScreen.loading (snd after)
     = (if token_absent auth then HomeScreen.loading s else false).
Proof.
  unfold token_absent. open_records.
  destruct auth as [[e t login logout busy]|]; [|split; reflexivity].
  cbn [AuthContextType.token].
  destruct (Js.truthy t) eqn:Ht; unfold_more; rewrite Ht; cbn; [|split; reflexivity].
  destruct answer as [|[status [data|]|status json]]; cbn; try (split; reflexivity).
  destruct (status =? 401)%Z; cbn; split; reflexivity.
Qed.

(** ** The detail screen's photo upload and actions *)

(** X16: With a token and a complaint on screen, [uploadProgressPhoto] sends
    a POST to the complaint's progress-photo path whose body is the
    complaint's id, the image as given and the note "Progress update"; on a
    2xx it shows the success alert and then does exactly what
    [fetchComplaint] does with the answer to its GET; when the GET succeeds
    the complaint on screen is the one the GET returned. *)
Theorem uploadProgressPhoto_sends_image_then_refetches
    (BACKEND_URL id : option string) (ctx : AuthContextType.t)
    (base64Image : string) (c : ComplaintDetail.t)
    (w : World) (s : ComplaintDetailScreen.State) :
  Js.truthy (AuthContextType.token ctx) = true ->
  ComplaintDetailScreen.complaint s = Some c ->
  let auth := Some ctx in
  let sent :=
    {| url := (Js.render BACKEND_URL ++ "/api/complaints/" ++ ComplaintDetail.id c
               ++ "/progress-photo")%string;
       method := "POST";
       headers := bearer_headers (AuthContextType.token ctx);
       body := photo_body (ComplaintDetail.id c) base64Image "Progress update" |} in
  (forall status acknowledged refetch,
     exec (ComplaintDetailScreen.uploadProgressPhoto BACKEND_URL id auth base64Image
             (fetch_resolves (Ok2xx status acknowledged)) refetch) (w, s)
     = exec (ComplaintDetailScreen.setUpdating true ;;
             lift (emit (fetch_call sent)) ;;
             lift (emit (Alert_alert "Success" "Progress photo added successfully")) ;;
             ComplaintDetailScreen.fetchComplaint BACKEND_URL id auth refetch ;;
             ComplaintDetailScreen.setUpdating false) (w, s))
  /\ (forall status acknowledged status' current,
        Js.truthy id = true ->
        let after :=
          exec (ComplaintDetailScreen.uploadProgressPhoto BACKEND_URL id auth base64Image
                  (fetch_resolves (Ok2xx status acknowledged))
                  (fetch_resolves (Ok2xx status' (Some current)))) (w, s) in
        ComplaintDetailScreen.complaint (snd after) = Some current
        /\ requests (events (fst after))
           = requests (events w)
             ++ [sent;
                 {| url := (Js.render BACKEND_URL ++ "/api/complaints/" ++ Js.render id)%string;
                    method := "GET";
                    headers := bearer_headers (AuthContextType.token ctx);
                    body := no_body |}]).
Proof.
  intros Htoken Hc auth sent. subst auth sent.
  open_records. subst. split.
  - intros status acknowledged refetch.
    unfold_prog. rewrite Htoken. cbn.
    destruct (Js.truthy id); cbn; [|reflexivity].
    destruct refetch as [|[status' [current|]|status' json]]; cbn;
      try reflexivity.
    destruct (status' =? 401)%Z; cbn.
    + match goal with
      | |- context [match ?call with pair _ _ => _ end] => destruct call
      end; reflexivity.
    + destruct (status' =? 404)%Z; reflexivity.
  - intros status acknowledged status' current Hid.
    unfold_prog. rewrite Htoken, Hid. cbn.
    tidy_events. rewrite <- app_assoc. split; reflexivity.
Qed.

Lemma uploadProgressPhoto_sends_image_then_refetches_witness :
  let after :=
    exec (ComplaintDetailScreen.uploadProgressPhoto Sample.BACKEND_URL (Some "c-7")
            Sample.auth "aGVsbG8="
            (fetch_resolves (Ok2xx 200 (Some tt)))
            (fetch_resolves (Ok2xx 200 (Some (Sample.pothole "active")))))
         (Sample.signed_in, Sample.detail) in
  ComplaintDetailScreen.complaint (snd after) = Some (Sample.pothole "active")
  /\ requests (events (fst after))
     = requests (events Sample.signed_in)
       ++ [{| url := "https://api.example.org/api/complaints/c-7/progress-photo";
              method := "POST";
              headers := bearer_headers (Some "tok1");
              body := photo_body "c-7" "aGVsbG8=" "Progress update" |};
           {| url := "https://api.example.org/api/complaints/c-7";
              method := "GET";
              headers := bearer_headers (Some "tok1");
              body := no_body |}].
Proof.
  apply (proj2 (@uploadProgressPhoto_sends_image_then_refetches
                  Sample.BACKEND_URL (Some "c-7") Sample.ctx "aGVsbG8="
                  (Sample.pothole "pending") Sample.signed_in Sample.detail
                  eq_refl eq_refl)
           200%Z (Some tt) 200%Z (Sample.pothole "active")).
  reflexivity.
Defined.

(** X17: The "Update Status" card never offers the status the complaint has,
    never offers "pending", always offers something, and offers only
    "active" and "resolved", each at most once. *)
Theorem statusActions_offer_a_change (c : ComplaintDetail.t) :
  let offered := ComplaintDetailScreen.statusActions c in
  ~ In (ComplaintDetail.status c) offered
  /\ ~ In "pending" offered
  /\ offered <> []
  /\ NoDup offered
  /\ (forall newStatus, In newStatus offered ->
        newStatus = "active" \/ newStatus = "resolved").
Proof.
  unfold ComplaintDetailScreen.statusActions.
  destruct (ComplaintDetail.status c =? "active")%string eqn:Ha;
    destruct (ComplaintDetail.status c =? "resolved")%string eqn:Hr; cbn.
  - apply String.eqb_eq in Ha, Hr. rewrite Ha in Hr. discriminate.
  - apply String.eqb_eq in Ha. rewrite Ha.
    repeat split; try (intros [H|[]]; discriminate); try discriminate.
    + repeat constructor. intros [].
    + intros newStatus [<-|[]]. now right.
  - apply String.eqb_eq in Hr. rewrite Hr.
    repeat split; try (intros [H|[]]; discriminate); try discriminate.
    + repeat constructor. intros [].
    + intros newStatus [<-|[]]. now left.
  - apply String.eqb_neq in Ha, Hr.
    repeat split; try discriminate.
    + intros [H|[H|[]]]; congruence.
    + intros [H|[H|[]]]; discriminate.
    + repeat constructor; [intros [H|[]]; discriminate | intros []].
    + intros newStatus [<-|[<-|[]]]; auto.
Qed.

(** X18: Without the camera permission nothing is offered: [addProgressPhoto]
    adds one event (the "Permission Required" alert, or a console error when
    the permission request itself rejects) and stops, so the outcome does
    not depend on the button, the pickers or the network, and no request is
    sent. *)
Theorem addProgressPhoto_needs_permission
    (BACKEND_URL id : option string) (auth : option AuthContextType.t)
    (permission : option string)
    (choice : ComplaintDetailScreen.PhotoChoice)
    (camera gallery : option ComplaintDetailScreen.ImagePickerResult)
    (answer : FetchResult unit ErrorData.t)
    (refetch : FetchResult ComplaintDetail.t ErrorData.t)
    (w : World) (s : ComplaintDetailScreen.State) :
  permission_granted permission = false ->
  ComplaintDetailScreen.addProgressPhoto BACKEND_URL id auth permission choice
    camera gallery answer refetch (w, s)
  = (Val tt,
     (exec (emit (match permission with
                  | Some _ => Alert_alert "Permission Required"
                                "Camera permission is needed to take photos"
                  | None => console_error "Error requesting camera permission:"
                  end)) w,
      s)).
Proof.
  intros Hdenied. open_records.
  destruct permission as [status|]; unfold_more; [|reflexivity].
  cbn in Hdenied. rewrite Hdenied. reflexivity.
Qed.

Lemma addProgressPhoto_needs_permission_witness :
  ComplaintDetailScreen.addProgressPhoto Sample.BACKEND_URL (Some "c-7") Sample.auth
    (Some "denied") ComplaintDetailScreen.press_ChooseFromGallery None None
    fetch_rejects fetch_rejects (Sample.signed_in, Sample.detail)
  = (Val tt,
     (exec (emit (Alert_alert "Permission Required"
                    "Camera permission is needed to take photos")) Sample.signed_in,
      Sample.detail)).
Proof.
  apply (@addProgressPhoto_needs_permission Sample.BACKEND_URL (Some "c-7") Sample.auth
           (Some "denied") ComplaintDetailScreen.press_ChooseFromGallery None None
           fetch_rejects fetch_rejects Sample.signed_in Sample.detail).
  reflexivity.
Defined.

(** X19: A picker that delivers no image sends nothing and changes nothing on
    screen: when it was cancelled, or its first asset has no [base64], not
    even an alert is shown; when the launcher rejected or gave no asset, the
    only effect is the error alert. *)
Theorem picker_without_image_sends_nothing
    (BACKEND_URL id : option string) (auth : option AuthContextType.t)
    (picked : option ComplaintDetailScreen.ImagePickerResult)
    (answer : FetchResult unit ErrorData.t)
    (refetch : FetchResult ComplaintDetail.t ErrorData.t)
    (w : World) (s : ComplaintDetailScreen.State) :
  delivers_image picked = false ->
  let after_camera :=
    exec (ComplaintDetailScreen.takePicture BACKEND_URL id auth picked answer refetch)
         (w, s) in
  let after_gallery :=
    exec (ComplaintDetailScreen.pickFromGallery BACKEND_URL id auth picked answer refetch)
         (w, s) in
  let quiet :=
    match picked with
    | Some result =>
        ComplaintDetailScreen.canceled result
        || match ComplaintDetailScreen.assets result with
           | Some (_ :: _) => true
           | _ => false
           end
    | None => false
    end in
  (snd after_camera = s
   /\ same_session w (fst after_camera)
   /\ requests (events (fst after_camera)) = requests (events w)
   /\ alerts (events (fst after_camera))
      = alerts (events w)
        ++ (if quiet then [] else [("Error", "Failed to take picture")]))
  /\ (snd after_gallery = s
      /\ same_session w (fst after_gallery)
      /\ requests (events (fst after_gallery)) = requests (events w)
      /\ alerts (events (fst after_gallery))
         = alerts (events w)
           ++ (if quiet then [] else [("Error", "Failed to pick image")])).
Proof.
  intros Hnone. open_records. unfold same_session.
  destruct picked as [[cancelled [[|[image] rest]|]]|]; cbn in Hnone;
    try destruct cancelled; cbn in Hnone;
    unfold_more; cbn; rewrite ?Hnone; cbn;
    tidy_events; repeat split; reflexivity.
Qed.

Lemma picker_without_image_sends_nothing_witness :
  let cancelled :=
    Some {| ComplaintDetailScreen.canceled := true;
            ComplaintDetailScreen.assets := None |} in
  let after_camera :=
    exec (ComplaintDetailScreen.takePicture Sample.BACKEND_URL (Some "c-7") Sample.auth
            cancelled fetch_rejects fetch_rejects) (Sample.signed_in, Sample.detail) in
  let after_gallery :=
    exec (ComplaintDetailScreen.pickFromGallery Sample.BACKEND_URL (Some "c-7")
            Sample.auth cancelled fetch_rejects fetch_rejects)
         (Sample.signed_in, Sample.detail) in
  (snd after_camera = Sample.detail
   /\ same_session Sample.signed_in (fst after_camera)
   /\ requests (events (fst after_camera)) = requests (events Sample.signed_in)
   /\ alerts (events (fst after_camera)) = alerts (events Sample.signed_in) ++ [])
  /\ (snd after_gallery = Sample.detail
      /\ same_session Sample.signed_in (fst after_gallery)
      /\ requests (events (fst after_gallery)) = requests (events Sample.signed_in)
      /\ alerts (events (fst after_gallery)) = alerts (events Sample.signed_in) ++ []).
Proof.
  intros cancelled.
  apply (@picker_without_image_sends_nothing Sample.BACKEND_URL (Some "c-7")
           Sample.auth cancelled fetch_rejects fetch_rejects
           Sample.signed_in Sample.detail).
  reflexivity.
Defined.

(** X20: No spinner is left on by a write: with a token and a complaint on
    screen, [updating] is false after a status update and after a photo
    upload, whatever the answers; and after a write that succeeded, the
    re-fetch has turned [loading] off too. *)
Theorem writes_clear_busy_flags
    (BACKEND_URL id : option string) (ctx : AuthContextType.t)
    (newStatus base64Image : string) (c : ComplaintDetail.t)
    (put : FetchResult ComplaintDetail.t ErrorData.t)
    (post : FetchResult unit ErrorData.t)
    (refetch : FetchResult ComplaintDetail.t ErrorData.t)
    (w : World) (s : ComplaintDetailScreen.State) :
  Js.truthy (AuthContextType.token ctx) = true ->
  Js.truthy id = true ->
  ComplaintDetailScreen.complaint s = Some c ->
  let after_update :=
    snd (exec (ComplaintDetailScreen.updateComplaintStatus
                 BACKEND_URL id (Some ctx) newStatus put refetch) (w, s)) in
  let after_upload :=
    snd (exec (ComplaintDetailScreen.uploadProgressPhoto
                 BACKEND_URL id (Some ctx) base64Image post refetch) (w, s)) in
  ComplaintDetailScreen.updating after_update = false
  /\ ComplaintDetailScreen.updating after_upload = false
  /\ ComplaintDetailScreen.loading after_update
     = (if failed put then ComplaintDetailScreen.loading s else false)
  /\ ComplaintDetailScreen.loading after_upload
     = (if failed post then ComplaintDetailScreen.loading s else false).
Proof.
  intros Htoken Hid Hc. open_records. subst.
  destruct put as [|[status json|status json]],
           post as [|[status2 json2|status2 json2]];
    unfold_prog; rewrite Htoken; cbn; rewrite ?Hid; cbn;
    repeat split; try reflexivity;
    destruct refetch as [|[status' [current|]|status' json']]; cbn;
      try reflexivity;
    destruct (status' =? 401)%Z; cbn; try reflexivity;
    destruct (status' =? 404)%Z; reflexivity.
Qed.

Lemma writes_clear_busy_flags_witness :
  let busy :=
    {| ComplaintDetailScreen.complaint := Some (Sample.pothole "pending");
       ComplaintDetailScreen.loading := true;
       ComplaintDetailScreen.updating := true;
       ComplaintDetailScreen.selectedImage := None;
       ComplaintDetailScreen.showImageModal := false |} in
  let put : FetchResult ComplaintDetail.t ErrorData.t :=
    fetch_resolves (Ok2xx 200 None) in
  let post : FetchResult unit ErrorData.t := fetch_rejects in
  let after_update :=
    snd (exec (ComplaintDetailScreen.updateComplaintStatus
                 Sample.BACKEND_URL (Some "c-7") (Some Sample.ctx) "active" put
                 fetch_rejects) (Sample.signed_in, busy)) in
  let after_upload :=
    snd (exec (ComplaintDetailScreen.uploadProgressPhoto
                 Sample.BACKEND_URL (Some "c-7") (Some Sample.ctx) "aGVsbG8=" post
                 fetch_rejects) (Sample.signed_in, busy)) in
  ComplaintDetailScreen.updating after_update = false
  /\ ComplaintDetailScreen.updating after_upload = false
  /\ ComplaintDetailScreen.loading after_update
     = (if failed put then ComplaintDetailScreen.loading busy else false)
  /\ ComplaintDetailScreen.loading after_upload
     = (if failed post then ComplaintDetailScreen.loading busy else false).
Proof.
  intros busy put post.
  apply (@writes_clear_busy_flags Sample.BACKEND_URL (Some "c-7") Sample.ctx
           "active" "aGVsbG8=" (Sample.pothole "pending") put post fetch_rejects
           Sample.signed_in busy);
    reflexivity.
Defined.

(** ** The profile screen *)

(** X21: The logout dialog.  Cancelling keeps the session and navigates
    nowhere.  Confirming, with the provider's [logout] and a store whose
    removals go through, empties the store, nulls the in-memory token and
    employee and navigates to ["/"], after the dialog and not before. *)
Theorem handleLogout_asks_first
    (BACKEND_URL : option string) (F : Faults)
    (again : FetchResult LoginData.t ErrorData.t) (w0 : World)
    (w : World) (s : ProfileScreen.State) :
  removeItem_rejects F "auth_token" = false ->
  removeItem_rejects F "employee_data" = false ->
  let auth := Some (AuthProvider.value BACKEND_URL F again w0) in
  let cancelled :=
    exec (ProfileScreen.handleLogout auth ProfileScreen.press_Cancel) (w, s) in
  let confirmed :=
    exec (ProfileScreen.handleLogout auth ProfileScreen.press_Logout) (w, s) in
  (same_session w (fst cancelled)
   /\ events (fst cancelled)
      = events w ++ [Alert_alert "Logout" "Are you sure you want to logout?"]
   /\ snd cancelled = s)
  /\ (token (fst confirmed) = None
      /\ employee (fst confirmed) = None
      /\ storage (fst confirmed) = empty_storage
      /\ events (fst confirmed)
         = events w ++ [Alert_alert "Logout" "Are you sure you want to logout?";
                        router_replace "/"]
      /\ snd confirmed = s).
Proof.
  intros H1 H2. open_records. unfold same_session. unfold_more.
  rewrite H1, H2. cbn. rewrite <- app_assoc. repeat split; reflexivity.
Qed.

Lemma handleLogout_asks_first_witness :
  let blank := {| ProfileScreen.profileData := None; ProfileScreen.loading := false |} in
  let cancelled :=
    exec (ProfileScreen.handleLogout Sample.auth ProfileScreen.press_Cancel)
         (Sample.signed_in, blank) in
  let confirmed :=
    exec (ProfileScreen.handleLogout Sample.auth ProfileScreen.press_Logout)
         (Sample.signed_in, blank) in
  (same_session Sample.signed_in (fst cancelled)
   /\ events (fst cancelled)
      = events Sample.signed_in
        ++ [Alert_alert "Logout" "Are you sure you want to logout?"]
   /\ snd cancelled = blank)
  /\ (token (fst confirmed) = None
      /\ employee (fst confirmed) = None
      /\ storage (fst confirmed) = empty_storage
      /\ events (fst confirmed)
         = events Sample.signed_in
           ++ [Alert_alert "Logout" "Are you sure you want to logout?";
               router_replace "/"]
      /\ snd confirmed = blank).
Proof.
  intros blank.
  apply (@handleLogout_asks_first Sample.BACKEND_URL no_faults fetch_rejects
           Sample.signed_in Sample.signed_in blank);
    reflexivity.
Defined.

(** ** Presentation helpers *)

Lemma lower_upper_char (c : ascii) :
  Js.lower_char (Js.upper_char c) = Js.lower_char c.
Proof. destruct c as [[] [] [] [] [] [] [] []]; reflexivity. Qed.

Lemma lower_lower_char (c : ascii) :
  Js.lower_char (Js.lower_char c) = Js.lower_char c.
Proof. destruct c as [[] [] [] [] [] [] [] []]; reflexivity. Qed.

Lemma toLowerCase_toUpperCase (s : string) :
  Js.toLowerCase (Js.toUpperCase s) = Js.toLowerCase s.
Proof.
  induction s as [|c s IH]; [reflexivity|].
  cbn. now rewrite lower_upper_char, IH.
Qed.

Lemma toLowerCase_idempotent (s : string) :
  Js.toLowerCase (Js.toLowerCase s) = Js.toLowerCase s.
Proof.
  induction s as [|c s IH]; [reflexivity|].
  cbn. now rewrite lower_lower_char, IH.
Qed.

(** X22: The department icon ignores letter case: a department written in
    upper case, in lower case or in any mix gets the icon of its lower-case
    form. *)
Theorem getDepartmentIcon_ignores_case (department other : string) :
  ProfileScreen.getDepartmentIcon (Js.toUpperCase department)
  = ProfileScreen.getDepartmentIcon department
  /\ ProfileScreen.getDepartmentIcon (Js.toLowerCase department)
     = ProfileScreen.getDepartmentIcon department
  /\ (Js.toLowerCase other = Js.toLowerCase department ->
      ProfileScreen.getDepartmentIcon other
      = ProfileScreen.getDepartmentIcon department).
Proof.
  unfold ProfileScreen.getDepartmentIcon.
  rewrite toLowerCase_toUpperCase, toLowerCase_idempotent.
  repeat split. intros ->. reflexivity.
Qed.





(** X24: Status and priority colours.  The list and the detail screen colour
    alike; and on either screen two codes that get the same colour are the
    same code, unless that colour is the grey of unknown codes. *)
Theorem colours_identify_known_codes (code code' : string) :
  HomeScreen.getStatusColor code = ComplaintDetailScreen.getStatusColor code
  /\ HomeScreen.getPriorityColor code = ComplaintDetailScreen.getPriorityColor code
  /\ (HomeScreen.getStatusColor code = HomeScreen.getStatusColor code' ->
      (HomeScreen.getStatusColor code =? "#a0aec0")%string = false ->
      code = code')
  /\ (HomeScreen.getPriorityColor code = HomeScreen.getPriorityColor code' ->
      (HomeScreen.getPriorityColor code =? "#a0aec0")%string = false ->
      code = code').
Proof.
  split; [reflexivity|]. split; [reflexivity|].
  unfold HomeScreen.getStatusColor, HomeScreen.getPriorityColor.
  split; intros Hsame Hknown;
    repeat match goal with
    | H : context [if (?a =? ?b)%string then _ else _] |- _ =>
        let E := fresh "E" in
        destruct (a =? b)%string eqn:E; [apply String.eqb_eq in E|]
    end;
    subst; try reflexivity; try discriminate.
Qed.

(** ** Requests *)

Ltac sent_nothing :=
  exists []; split; [now rewrite app_nil_r | constructor].

Ltac sent_some :=
  eexists; split;
  [ rewrite <- ?app_assoc; cbn [app]; reflexivity
  | repeat constructor; cbn; assumption ].

(** X25: Every request a screen operation sends carries the bearer token of
    its context, and that token is not empty: under the provider's context,
    any answers and any store behaviour, the five operations add to the log
    only requests with [Authorization: Bearer <token>] for a non-empty
    token. *)
Theorem screen_requests_carry_the_token
    (BACKEND_URL id : option string) (F : Faults)
    (again : FetchResult LoginData.t ErrorData.t) (w0 w : World) :
  let ctx := AuthProvider.value BACKEND_URL F again w0 in
  let only_authorized (before : World) (after : World) :=
    exists sent,
      requests (events after) = requests (events before) ++ sent
      /\ Forall (authorized_by ctx) sent in
  (forall isRefresh answer s,
     only_authorized w
       (fst (exec (HomeScreen.fetchComplaints BACKEND_URL (Some ctx) isRefresh answer)
                  (w, s))))
  /\ (forall answer s,
     only_authorized w
       (fst (exec (ComplaintDetailScreen.fetchComplaint BACKEND_URL id (Some ctx) answer)
                  (w, s))))
  /\ (forall answer s,
     only_authorized w
       (fst (exec (ProfileScreen.fetchProfile BACKEND_URL (Some ctx) answer) (w, s))))
  /\ (forall newStatus answer refetch s,
     only_authorized w
       (fst (exec (ComplaintDetailScreen.updateComplaintStatus
                     BACKEND_URL id (Some ctx) newStatus answer refetch) (w, s))))
  /\ (forall base64Image answer refetch s,
     only_authorized w
       (fst (exec (ComplaintDetailScreen.uploadProgressPhoto
                     BACKEND_URL id (Some ctx) base64Image answer refetch) (w, s)))).
Proof.
  destruct w0 as [[stored0 text0] e0 t0 loading0 log0].
  destruct w as [[stored text] e t loading log].
  unfold authorized_by. cbn [AuthProvider.value AuthContextType.token].
  destruct (Js.truthy t0) eqn:Ht.
  - assert (Hok : bearer_headers t0 = bearer_headers t0 /\ true = true) by (split; reflexivity).
    repeat split; intros; open_records;
      unfold_prog; rewrite ?Ht; cbn;
      repeat (match goal with
              | |- context [match ?x with _ => _ end] => is_var x; destruct x
              | |- context [removeItem_rejects ?F ?k] => destruct (removeItem_rejects F k)
              | |- context [Js.truthy ?v] => destruct (Js.truthy v)
              | |- context [(?a =? ?b)%Z] => destruct (a =? b)%Z
              end; cbn);
      tidy_events; first [sent_nothing | sent_some].
  - repeat split; intros; open_records;
      unfold_prog; rewrite ?Ht; cbn;
      repeat (match goal with
              | |- context [match ?x with _ => _ end] => is_var x; destruct x
              end; cbn);
      sent_nothing.
Qed.

(** ** Witnesses of two lemmas of the first part *)

Lemma fetch_401_expires_session_witness :
  fst (exec (HomeScreen.fetchComplaints Sample.BACKEND_URL (Some Sample.ctx) false
               (fetch_resolves (NotOk 401 None))) (Sample.signed_in, Sample.home))
  = exec (emit (fetch_call {| url := (Js.render Sample.BACKEND_URL ++ "/api/complaints")%string;
                              method := "GET";
                              headers := bearer_headers (AuthContextType.token Sample.ctx);
                              body := no_body |}) ;;
          emit (console_error "Failed to fetch complaints:") ;;
          emit (Alert_alert "Session Expired" "Please login again") ;;
          unawaited (AuthContextType.logout Sample.ctx)) Sample.signed_in.
Proof.
  exact (proj1 (@fetch_401_expires_session Sample.BACKEND_URL None Sample.ctx
                  Sample.signed_in eq_refl)
           false None Sample.home).
Defined.

Lemma login_2xx_returns_success_witness :
  result (AuthProvider.login Sample.BACKEND_URL no_faults
            (fetch_resolves (Ok2xx 200 (Some Sample.granted))) "test123" "test123")
         Sample.first_start
  = Val true.
Proof.
  apply (@login_2xx_returns_success Sample.BACKEND_URL no_faults 200 Sample.granted
           "test123" "test123" Sample.first_start);
    reflexivity.
Defined.

Lemma getDepartmentIcon_ignores_case_witness :
  ProfileScreen.getDepartmentIcon "Sanitation"
  = ProfileScreen.getDepartmentIcon "sanitation".
Proof.
  apply (proj2 (proj2 (getDepartmentIcon_ignores_case "sanitation" "Sanitation"))).
  reflexivity.
Defined.

Lemma colours_identify_known_codes_witness : "green" = "green".
Proof.
  apply (proj1 (proj2 (proj2 (colours_identify_known_codes "green" "green"))));
    reflexivity.
Defined.
